(** * CropTransparentTriangles: the maximal opaque rectangle and its crop

    A shallow embedding of the plugin's [runCrop] (both revisions found in the
    repository: the histogram-stack search of [src/main.js] and the row-profile
    search of the other revision of [main.js]), with the properties the
    specification states about them.

    Modelling conventions.
    - JavaScript numbers that hold pixel samples and thresholds are exact
      rationals ([Q]); every finite IEEE double is one, comparisons of doubles
      are exact, and no double lies strictly between [0.002] and the double
      nearest to it, so [a >= 0.002] has the same truth value on every sample.
      [NaN] samples are outside the model.
    - Indices, counters and coordinates are integers; loop counters and array
      indices are [nat], values stored in an [Int32Array] are [Z] and every
      store that can change the value goes through [int32], the 32-bit
      two's-complement wrap.
    - A read past the end of the pixel buffer gives [undefined], and
      [undefined >= THR] is [false].
    - The host (Photoshop) is an explicit input: what [getPixels] answered; the
      host calls the body makes ([dispose], [crop]) are the events of a trace. *)

From Stdlib Require Import ZArith QArith List Bool Lia Lqa String.
Import ListNotations.
Open Scope Z_scope.

(** ** Values and host objects *)

Inductive jsval : Type :=
| JUndefined
| JNull
| JBool (b : bool)
| JNum (q : Q)
| JStr (s : string).

(** [v === n] for a number literal [n]: no coercion, only a number can be
    strictly equal to a number. *)
Definition strict_eq_num (v : jsval) (n : Q) : bool :=
  match v with
  | JNum q => Qeq_bool q n
  | _ => false
  end.

(** [{ left, top, right, bottom }]: source bounds, found rectangle, crop region. *)
Record rect : Type := mkRect { left : Z; top : Z; right : Z; bottom : Z }.

Record ImageData : Type := {
  components : Z;
  componentSize : jsval;
  (** [getData({chunky: true, fullRange})]; the argument is [fullRange]. *)
  getData : bool -> option (list Q)
}.

Record ImageObj : Type := {
  imageData : option ImageData;
  sourceBounds : option rect
}.

Inductive event : Type :=
| Dispose
| Crop (region : rect).

Inductive outcome : Type :=
| Returned
| Threw.

(** ** Settings and threshold (lines 9-18, the same in both revisions) *)

Definition INSET : Z := 1.

Definition alphaThreshold (componentSize : jsval) : Q :=
  if strict_eq_num componentSize 16 then 256
  else if strict_eq_num componentSize 32 then 0.002
  else 2.

(** ** Shared pieces of [runCrop] *)

(** Two's-complement wrap of a store into an [Int32Array]. *)
Definition int32 (z : Z) : Z := (z + 2 ^ 31) mod 2 ^ 32 - 2 ^ 31.

(** [arr[i]] for an [Int32Array]; the code reads inside the array only. *)
Definition hget (arr : list Z) (i : nat) : Z := nth i arr 0.

(** [data[idx] >= THR]. *)
Definition alpha_ge (data : list Q) (THR : Q) (idx : nat) : bool :=
  match nth_error data idx with
  | Some a => Qle_bool THR a
  | None => false
  end.

(** [v || 0] on a number. *)
Definition or0 (v : Z) : Z := if v =? 0 then 0 else v.

(** The state of the search: [bestArea], [bestL], [bestR], [bestT], [bestB]. *)
Record best : Type := mkBest {
  bestArea : Z; bestL : Z; bestR : Z; bestT : Z; bestB : Z
}.

(** The found rectangle [{bestL, bestT, bestR, bestB}]. *)
Definition rect_of (b : best) : rect :=
  {| left := bestL b; top := bestT b; right := bestR b; bottom := bestB b |}.

(** Conversion to document coordinates with the inward inset, and the guard of
    [doc.crop] (main.js 141-148, row-profile revision 162-169). *)
Definition cropRegion (r : rect) (offX offY width height : Z) : option rect :=
  let cropL := Z.min width (Z.max 0 (offX + left r + INSET)) in
  let cropR := Z.min width (Z.max 0 (offX + right r - INSET)) in
  let cropT := Z.min height (Z.max 0 (offY + top r + INSET)) in
  let cropB := Z.min height (Z.max 0 (offY + bottom r - INSET)) in
  if (cropL <? cropR) && (cropT <? cropB)
  then Some {| left := cropL; top := cropT; right := cropR; bottom := cropB |}
  else None.

(** ** The histogram-stack search (src/main.js) *)

Module Histogram.

(** Lines 101-104: the histogram update of row [y]. Iteration [x] reads and
    writes [heights[x]] only. *)
Definition update_heights (data : list Q) (w : nat) (THR : Q) (y : nat)
    (heights : list Z) : list Z :=
  let row := (y * w * 4)%nat in
  map (fun x =>
         if alpha_ge data THR (row + x * 4 + 3)%nat
         then int32 (hget heights x + 1)
         else 0)
      (seq 0 w).

(** Lines 121-127. *)
Definition consider (b : best) (area left right : Z) (y : nat) (height : Z) : best :=
  if area >? bestArea b then
    let bB := Z.of_nat y + 1 in
    {| bestArea := area; bestL := left; bestR := right;
       bestT := bB - height; bestB := bB |}
  else b.

(** Lines 111-128: the [while] loop; the head of [stack] is its top. *)
Fixpoint pop_while (heights : list Z) (y i : nat) (curH : Z)
    (stack : list nat) (b : best) : list nat * best :=
  match stack with
  | [] => ([], b)
  | topIdx :: stack' =>
      if curH <? hget heights topIdx then
        let height := hget heights topIdx in
        if height <=? 0 then pop_while heights y i curH stack' b
        else
          let right := Z.of_nat i in
          let left := match stack' with
                      | [] => 0
                      | below :: _ => Z.of_nat below + 1
                      end in
          let widthRect := right - left in
          let area := height * widthRect in
          pop_while heights y i curH stack' (consider b area left right y height)
      else (stack, b)
  end.

(** Lines 108-131: one iteration of the [for] loop over [i]. *)
Definition scan_step (heights : list Z) (w y : nat)
    (st : list nat * best) (i : nat) : list nat * best :=
  let curH := if (i =? w)%nat then 0 else hget heights i in
  let '(stack', b') := pop_while heights y i curH (fst st) (snd st) in
  (i :: stack', b').

(** Lines 107-131. *)
Definition scan_row (heights : list Z) (w y : nat) (b : best) : best :=
  snd (fold_left (scan_step heights w y) (seq 0 (S w)) ([], b)).

(** Lines 97-132: one iteration of the loop over the rows. *)
Definition row_step (data : list Q) (w : nat) (THR : Q)
    (st : list Z * best) (y : nat) : list Z * best :=
  let heights := update_heights data w THR y (fst st) in
  (heights, scan_row heights w y (snd st)).

Definition init_best : best :=
  {| bestArea := 0; bestL := 0; bestR := 0; bestT := 0; bestB := 0 |}.

(** Lines 92-132: the state after the loop over the rows. *)
Definition search (data : list Q) (w h : nat) (THR : Q) : list Z * best :=
  fold_left (row_step data w THR) (seq 0 h) (repeat 0 w, init_best).

(** Lines 92-137: the search and the test [bestArea <= 0]. *)
Definition findBest (data : list Q) (w h : nat) (THR : Q) : option best :=
  let b := snd (search data w h THR) in
  if bestArea b <=? 0 then None else Some b.

(** The rectangle finder: [{left, top, right (exclusive), bottom (exclusive)}]
    or nothing. *)
Definition findMaxRectangle (data : list Q) (w h : nat) (THR : Q) : option rect :=
  option_map rect_of (findBest data w h THR).

(** The body given to [executeAsModal] (lines 47-150), as a function of the
    document size and of what [getPixels] answered. *)
Definition runCrop (width height : Z) (imageObj : option ImageObj)
    : list event * outcome :=
  match imageObj with
  | None => ([], Returned)
  | Some io =>
    match imageData io with
    | None => ([], Returned)
    | Some idata =>
      let comps := components idata in
      let csize := componentSize idata in
      if negb (comps =? 4) then ([Dispose], Returned) else
      let data := if strict_eq_num csize 16
                  then getData idata true
                  else getData idata false in
      match data with
      | None => ([Dispose], Returned)
      | Some [] => ([Dispose], Returned)
      | Some data =>
        let sb := match sourceBounds io with
                  | Some sb => sb
                  | None => {| left := 0; top := 0; right := width; bottom := height |}
                  end in
        let offX := or0 (left sb) in
        let offY := or0 (top sb) in
        let w := right sb - left sb in
        let h := bottom sb - top sb in
        let THR := alphaThreshold csize in
        (* [new Int32Array(w)] throws a RangeError on a negative length; a
           length beyond the limit of the engine, refused too, is outside
           the model *)
        if w <? 0 then ([], Threw) else
        match findBest data (Z.to_nat w) (Z.to_nat h) THR with
        | None => ([Dispose], Returned)
        | Some b =>
          match cropRegion (rect_of b) offX offY width height with
          | Some region => ([Crop region], Returned)
          | None => ([], Returned)
          end
        end
      end
    end
  end.

(** *** The candidates of the scan, in scan order

    The same control as [pop_while], [scan_step], [scan_row] and [search],
    collecting the rectangle each pop proposes instead of comparing it with the
    best so far. A candidate is written as the state it would record. *)

Definition cand (area left right : Z) (y : nat) (height : Z) : best :=
  let bB := Z.of_nat y + 1 in
  {| bestArea := area; bestL := left; bestR := right;
     bestT := bB - height; bestB := bB |}.

(** The comparison of line 121 on a candidate. *)
Definition adopt (b c : best) : best :=
  if bestArea c >? bestArea b then c else b.

(** The left edge a pop computes from the stack below the popped index. *)
Definition nxt (stack : list nat) : nat :=
  match stack with
  | [] => 0%nat
  | below :: _ => S below
  end.

Fixpoint pop_rest (heights : list Z) (curH : Z) (stack : list nat) : list nat :=
  match stack with
  | [] => []
  | topIdx :: stack' =>
      if curH <? hget heights topIdx then pop_rest heights curH stack'
      else stack
  end.

Fixpoint pop_cands (heights : list Z) (y i : nat) (curH : Z)
    (stack : list nat) : list best :=
  match stack with
  | [] => []
  | topIdx :: stack' =>
      if curH <? hget heights topIdx then
        let height := hget heights topIdx in
        if height <=? 0 then pop_cands heights y i curH stack'
        else
          let right := Z.of_nat i in
          let left := Z.of_nat (nxt stack') in
          cand (height * (right - left)) left right y height
            :: pop_cands heights y i curH stack'
      else []
  end.

Definition cands_step (heights : list Z) (w y : nat)
    (st : list nat * list best) (i : nat) : list nat * list best :=
  let curH := if (i =? w)%nat then 0 else hget heights i in
  (i :: pop_rest heights curH (fst st),
   snd st ++ pop_cands heights y i curH (fst st)).

Definition row_cands (heights : list Z) (w y : nat) : list best :=
  snd (fold_left (cands_step heights w y) (seq 0 (S w)) ([], [])).

(** [heights] after the update of row [y]. *)
Fixpoint heights_at (data : list Q) (w : nat) (THR : Q) (y : nat) : list Z :=
  update_heights data w THR y
    match y with
    | O => repeat 0 w
    | S y' => heights_at data w THR y'
    end.

(** All candidates: row 0 first, each row in the order of its pops. *)
Definition all_cands (data : list Q) (w h : nat) (THR : Q) : list best :=
  flat_map (fun y => row_cands (heights_at data w THR y) w y) (seq 0 h).

(** *** Invariants of the scan of one row *)

(** The stack at the head of iteration [i]: indices below [i], increasing
    towards the top, each one a minimum of the histogram from the index after
    the one below it up to [i]. *)
Fixpoint stk_ok (heights : list Z) (i : nat) (stack : list nat) : Prop :=
  match stack with
  | [] => True
  | s :: rest =>
      (s < i)%nat /\ (nxt rest <= s)%nat /\
      (forall j, (nxt rest <= j < i)%nat -> hget heights s <= hget heights j) /\
      stk_ok heights i rest
  end.

(** A histogram rectangle of height [k] starting at column [l] is still to be
    proposed: an index of the stack will, when popped, propose one that
    contains it. *)
Fixpoint alive (heights : list Z) (stack : list nat) (l : nat) (k : Z) : Prop :=
  match stack with
  | [] => False
  | s :: rest =>
      ((nxt rest <= l <= s)%nat /\ k <= hget heights s) \/
      alive heights rest l k
  end.

(** Columns [l, r) of the histogram are all at least [k] high. *)
Definition hist_rect (heights : list Z) (w l r : nat) (k : Z) : Prop :=
  (l < r <= w)%nat /\ 1 <= k /\
  forall j, (l <= j < r)%nat -> k <= hget heights j.

Definition cand_ok (heights : list Z) (w y : nat) (c : best) : Prop :=
  exists l r k, hist_rect heights w l r k /\
    c = cand (k * (Z.of_nat r - Z.of_nat l)) (Z.of_nat l) (Z.of_nat r) y k.

Definition scan_inv (heights : list Z) (w y i : nat)
    (st : list nat * list best) : Prop :=
  nxt (fst st) = i /\
  stk_ok heights i (fst st) /\
  (forall c, In c (snd st) -> cand_ok heights w y c) /\
  (forall l r k, (r <= i)%nat -> hist_rect heights w l r k ->
     alive heights (fst st) l k \/
     exists c, In c (snd st) /\ k * (Z.of_nat r - Z.of_nat l) <= bestArea c).

End Histogram.

(** ** The row-profile search (the other revision of main.js) *)

Module RowProfile.

(** Lines 93-108: leftmost and rightmost opaque pixel of row [y], as stored in
    [L[y]] and [R[y]]. *)
Definition row_profile (data : list Q) (w : nat) (THR : Q) (y : nat) : Z * Z :=
  let row := (y * w * 4)%nat in
  match find (fun x => alpha_ge data THR (row + x * 4 + 3)%nat) (seq 0 w) with
  | None => (-1, -1)
  | Some l =>
    let r := match find (fun x => alpha_ge data THR (row + x * 4 + 3)%nat)
                        (rev (seq 0 w)) with
             | Some x => Z.of_nat x
             | None => -1
             end in
    (int32 (Z.of_nat l), int32 r)
  end.

Definition profileL (data : list Q) (w h : nat) (THR : Q) : list Z :=
  map (fun y => fst (row_profile data w THR y)) (seq 0 h).

Definition profileR (data : list Q) (w h : nat) (THR : Q) : list Z :=
  map (fun y => snd (row_profile data w THR y)) (seq 0 h).

(** Lines 111-117: the state is [(y0, maxW)]. *)
Definition widest_step (L R : list Z) (st : Z * Z) (y : nat) : Z * Z :=
  if hget L y >=? 0 then
    let ww := hget R y - hget L y in
    if ww >? snd st then (Z.of_nat y, ww) else st
  else st.

Definition widest_row (L R : list Z) (h : nat) : Z :=
  fst (fold_left (widest_step L R) (seq 0 h) (-1, -1)).

(** Lines 129-141: the loop upwards over the rows [ys] = [y0, y0-1, ..., 0]. *)
Fixpoint up_loop (L R : list Z) (y0 : nat) (ys : list nat)
    (maxL minR : Z) (b : best) : best :=
  match ys with
  | [] => b
  | y :: ys' =>
    if hget L y <? 0 then b else
    let maxL := Z.max maxL (hget L y) in
    let minR := Z.min minR (hget R y) in
    if maxL >=? minR then b else
    let area := (Z.of_nat y0 - Z.of_nat y + 1) * (minR - maxL) in
    let b' := if area >? bestArea b then
                {| bestArea := area; bestL := maxL; bestR := minR;
                   bestT := Z.of_nat y; bestB := Z.of_nat y0 |}
              else b in
    up_loop L R y0 ys' maxL minR b'
  end.

(** Lines 146-158: the loop downwards over the rows [ys] = [y0, ..., h-1]. *)
Fixpoint down_loop (L R : list Z) (y0 : nat) (ys : list nat)
    (maxL minR : Z) (b : best) : best :=
  match ys with
  | [] => b
  | y :: ys' =>
    if hget L y <? 0 then b else
    let maxL := Z.max maxL (hget L y) in
    let minR := Z.min minR (hget R y) in
    if maxL >=? minR then b else
    let area := (Z.of_nat y - Z.of_nat y0 + 1) * (minR - maxL) in
    let b' := if area >? bestArea b then
                {| bestArea := area; bestL := maxL; bestR := minR;
                   bestT := Z.of_nat y0; bestB := Z.of_nat y |}
              else b in
    down_loop L R y0 ys' maxL minR b'
  end.

(** Lines 90-159: nothing when no row has an opaque pixel ([y0 < 0]),
    otherwise the state [bestArea, bestL, bestR, bestT, bestB] after both
    loops. *)
Definition findBest (data : list Q) (w h : nat) (THR : Q) : option best :=
  let L := profileL data w h THR in
  let R := profileR data w h THR in
  let y0 := widest_row L R h in
  if y0 <? 0 then None else
  let y0 := Z.to_nat y0 in
  let b0 := {| bestArea := 0; bestL := hget L y0; bestR := hget R y0;
               bestT := Z.of_nat y0; bestB := Z.of_nat y0 |} in
  let b1 := up_loop L R y0 (rev (seq 0 (S y0))) (hget L y0) (hget R y0) b0 in
  let b2 := down_loop L R y0 (seq y0 (h - y0)) (hget L y0) (hget R y0) b1 in
  Some b2.

Definition findRectangle (data : list Q) (w h : nat) (THR : Q) : option rect :=
  option_map rect_of (findBest data w h THR).

(** The body given to [executeAsModal] (lines 47-172). *)
Definition runCrop (width height : Z) (imageObj : option ImageObj)
    : list event * outcome :=
  match imageObj with
  | None => ([], Returned)
  | Some io =>
    match imageData io with
    | None => ([], Returned)
    | Some idata =>
      let comps := components idata in
      let csize := componentSize idata in
      if negb (comps =? 4) then ([Dispose], Returned) else
      let data := if strict_eq_num csize 16
                  then getData idata true
                  else getData idata false in
      match data with
      | None => ([Dispose], Returned)
      | Some [] => ([Dispose], Returned)
      | Some data =>
        let sb := match sourceBounds io with
                  | Some sb => sb
                  | None => {| left := 0; top := 0; right := width; bottom := height |}
                  end in
        let offX := or0 (left sb) in
        let offY := or0 (top sb) in
        let w := right sb - left sb in
        let h := bottom sb - top sb in
        let THR := alphaThreshold csize in
        (* [new Int32Array(h)] throws a RangeError on a negative length; a
           length beyond the limit of the engine, refused too, is outside
           the model *)
        if h <? 0 then ([], Threw) else
        match findBest data (Z.to_nat w) (Z.to_nat h) THR with
        | None => ([Dispose], Returned)
        | Some b =>
          match cropRegion (rect_of b) offX offY width height with
          | Some region => ([Crop region; Dispose], Returned)
          | None => ([Dispose], Returned)
          end
        end
      end
    end
  end.

End RowProfile.


(** ** The alpha grid, as the specification speaks of it *)

(** The alpha sample of pixel [(x, y)]: the 4th component of its group. *)
Definition alpha (data : list Q) (w x y : nat) : option Q :=
  nth_error data (4 * (y * w + x) + 3)%nat.

(** Pixel [(x, y)] has opacity at or above the threshold. *)
Definition opaque (data : list Q) (w : nat) (THR : Q) (x y : nat) : Prop :=
  exists a, alpha data w x y = Some a /\ (THR <= a)%Q.

(** Every pixel of columns [l, r) and rows [t, b) is opaque. *)
Definition all_opaque (data : list Q) (w : nat) (THR : Q) (l r t b : nat) : Prop :=
  forall x y, (l <= x < r)%nat -> (t <= y < b)%nat -> opaque data w THR x y.

(** The test of the code on pixel [(x, y)]. *)
Definition opq (data : list Q) (w : nat) (THR : Q) (x y : nat) : bool :=
  alpha_ge data THR (y * w * 4 + x * 4 + 3)%nat.

(** Number of consecutive opaque rows of column [x] that end at row [y]. *)
Fixpoint run (data : list Q) (w : nat) (THR : Q) (x y : nat) : nat :=
  if opq data w THR x y then
    match y with
    | O => 1%nat
    | S y' => S (run data w THR x y')
    end
  else 0%nat.

(** A rectangle of opaque pixels inside the first [h] rows, as a recorded
    state. *)
Definition grid_cand (data : list Q) (w : nat) (THR : Q) (h : nat) (c : best) : Prop :=
  exists l r t b,
    (l < r <= w)%nat /\ (t < b <= h)%nat /\
    all_opaque data w THR l r t b /\
    c = {| bestArea := (Z.of_nat r - Z.of_nat l) * (Z.of_nat b - Z.of_nat t);
           bestL := Z.of_nat l; bestR := Z.of_nat r;
           bestT := Z.of_nat t; bestB := Z.of_nat b |}.

Definition area (r : rect) : Z := (right r - left r) * (bottom r - top r).

(** An RGBA buffer from rows of alpha samples; the colour components are 0. *)
Definition rgba (rows : list (list Q)) : list Q :=
  flat_map (fun row => flat_map (fun a => [0%Q; 0%Q; 0%Q; a]) row) rows.

(** A [w] x [h] RGBA buffer whose alpha samples are given by [f x y]. *)
Definition grid_of (w h : nat) (f : nat -> nat -> Q) : list Q :=
  rgba (map (fun y => map (fun x => f x y) (seq 0 w)) (seq 0 h)).

(** 10x10, opaque except for a transparent border 2 pixels wide. *)
Definition bordered : list Q :=
  grid_of 10 10 (fun x y =>
    if ((2 <=? x) && (x <? 8) && (2 <=? y) && (y <? 8))%nat then 255%Q else 0%Q).

(** 10x10, opaque on the left 5 columns and on the top 5 rows. *)
Definition l_shaped : list Q :=
  grid_of 10 10 (fun x y => if ((x <? 5) || (y <? 5))%nat then 255%Q else 0%Q).

(** 3x3, every sample 255. *)
Definition opaque3 : list Q := grid_of 3 3 (fun _ _ => 255%Q).

(** Every row of the grid is an interval: a pixel between two opaque pixels
    of its row is opaque. *)
Definition rows_convex (data : list Q) (w h : nat) (THR : Q) : Prop :=
  forall y xl x xr, (y < h)%nat -> (xl <= x <= xr)%nat -> (xr < w)%nat ->
    opaque data w THR xl y -> opaque data w THR xr y -> opaque data w THR x y.

(** The state of the two loops of lines 123-159 of the row-profile revision
    is a block of rows around [y0] whose profiles all contain the columns
    [bestL .. bestR]. *)
Definition profile_block (L R : list Z) (h y0 : nat) (b : best) : Prop :=
  (0 <= bestT b <= Z.of_nat y0 /\ Z.of_nat y0 <= bestB b < Z.of_nat h) /\
  (bestArea b = 0 \/
   (0 < bestArea b /\
    bestArea b = (bestB b - bestT b + 1) * (bestR b - bestL b))) /\
  forall y : nat, bestT b <= Z.of_nat y <= bestB b ->
    0 <= hget L y /\ hget L y <= bestL b /\ bestL b <= bestR b /\ bestR b <= hget R y.


(** ** Host answers for the examples *)

(** What [getPixels] answers for an RGBA layer of the given depth, samples and
    source bounds. *)
Definition image_of (csize : Q) (data : list Q) (sb : option rect) : ImageObj :=
  {| imageData := Some {| components := 4; componentSize := JNum csize;
                          getData := fun _ => Some data |};
     sourceBounds := sb |}.

(** [imageObj.sourceBounds || { left: 0, top: 0, right: width, bottom: height }]. *)
Definition bounds_of (width height : Z) (io : ImageObj) : rect :=
  match sourceBounds io with
  | Some sb => sb
  | None => {| left := 0; top := 0; right := width; bottom := height |}
  end.

(** Number of calls of [imageData.dispose()] in a trace. *)
Definition disposals (trace : list event) : nat :=
  List.length (filter (fun e => match e with Dispose => true | Crop _ => false end) trace).

(** [clamp(v, lo, hi)], as the code computes it: [Math.min(hi, Math.max(lo, v))]. *)
Definition clamp (v lo hi : Z) : Z := Z.min hi (Z.max lo v).

(** * Proofs *)

(** ** Loops and arrays *)

Lemma fold_left_seq_from {A : Type} (f : A -> nat -> A) (P : nat -> A -> Prop) :
  forall n s a,
    P s a ->
    (forall i a', (s <= i < s + n)%nat -> P i a' -> P (S i) (f a' i)) ->
    P (s + n)%nat (fold_left f (seq s n) a).
Proof.
  induction n as [|n IH]; intros s a Ha Hstep; simpl.
  - now rewrite Nat.add_0_r.
  - replace (s + S n)%nat with (S s + n)%nat by lia.
    apply IH.
    + apply Hstep; [lia | exact Ha].
    + intros i a' Hi. apply Hstep. lia.
Qed.

Lemma fold_left_seq_inv {A : Type} (f : A -> nat -> A) (P : nat -> A -> Prop) n a :
  P 0%nat a ->
  (forall i a', (i < n)%nat -> P i a' -> P (S i) (f a' i)) ->
  P n (fold_left f (seq 0 n) a).
Proof.
  intros H0 Hstep.
  apply (fold_left_seq_from f P n 0%nat a H0).
  intros i a' Hi. apply Hstep. lia.
Qed.

Lemma int32_small z : - 2 ^ 31 <= z < 2 ^ 31 -> int32 z = z.
Proof.
  intros Hz. unfold int32.
  rewrite Z.mod_small; lia.
Qed.

Lemma hget_map_seq (f : nat -> Z) w x :
  (x < w)%nat -> hget (map f (seq 0 w)) x = f x.
Proof.
  intros Hx. unfold hget.
  rewrite (nth_indep _ 0 (f 0%nat)) by (rewrite length_map, length_seq; exact Hx).
  rewrite map_nth, seq_nth by exact Hx. reflexivity.
Qed.

Lemma hget_overflow arr i : (List.length arr <= i)%nat -> hget arr i = 0.
Proof. intros H. unfold hget. now apply nth_overflow. Qed.

(** ** The histogram-stack search and its candidates *)

Module HistogramFacts.
Import Histogram.

Lemma consider_adopt b a l r y k :
  consider b a l r y k = adopt b (cand a l r y k).
Proof. reflexivity. Qed.

Lemma left_nxt (stack : list nat) :
  match stack with
  | [] => 0
  | below :: _ => Z.of_nat below + 1
  end = Z.of_nat (nxt stack).
Proof. destruct stack; simpl; lia. Qed.

Lemma pop_while_trace heights y i curH :
  forall stack b,
    pop_while heights y i curH stack b =
    (pop_rest heights curH stack,
     fold_left adopt (pop_cands heights y i curH stack) b).
Proof.
  induction stack as [|s rest IH]; intros b; simpl.
  - reflexivity.
  - destruct (curH <? hget heights s); [|reflexivity].
    destruct (hget heights s <=? 0).
    + apply IH.
    + rewrite IH, consider_adopt, left_nxt. reflexivity.
Qed.

Lemma scan_fold_trace heights w y b :
  forall l stack cs,
    fold_left (scan_step heights w y) l (stack, fold_left adopt cs b) =
    (fst (fold_left (cands_step heights w y) l (stack, cs)),
     fold_left adopt (snd (fold_left (cands_step heights w y) l (stack, cs))) b).
Proof.
  induction l as [|i l IH]; intros stack cs; simpl.
  - reflexivity.
  - unfold scan_step at 2, cands_step at 2 4. simpl fst; simpl snd.
    rewrite pop_while_trace, <- fold_left_app.
    apply IH.
Qed.

Lemma scan_row_trace heights w y b :
  scan_row heights w y b = fold_left adopt (row_cands heights w y) b.
Proof.
  unfold scan_row, row_cands.
  change ([], b) with (@nil nat, fold_left adopt [] b).
  now rewrite scan_fold_trace.
Qed.

Lemma search_S data w h THR :
  search data w (S h) THR =
  row_step data w THR (search data w h THR) h.
Proof.
  unfold search. now rewrite seq_S, fold_left_app.
Qed.

Lemma search_heights data w THR :
  forall y, fst (search data w (S y) THR) = heights_at data w THR y.
Proof.
  induction y as [|y IH].
  - reflexivity.
  - rewrite search_S. unfold row_step. simpl fst. now rewrite IH.
Qed.

Lemma all_cands_S data w h THR :
  all_cands data w (S h) THR =
  all_cands data w h THR ++ row_cands (heights_at data w THR h) w h.
Proof.
  unfold all_cands. rewrite seq_S, flat_map_app. simpl.
  now rewrite app_nil_r.
Qed.

(** The search keeps, of all candidates in scan order, what line 121 keeps. *)
Lemma search_trace data w h THR :
  snd (search data w h THR) =
  fold_left adopt (all_cands data w h THR) init_best.
Proof.
  induction h as [|h IH].
  - reflexivity.
  - rewrite search_S, all_cands_S, fold_left_app, <- IH.
    unfold row_step. simpl snd.
    rewrite scan_row_trace. f_equal. f_equal.
    destruct h as [|h]; [reflexivity|].
    now rewrite search_heights.
Qed.

End HistogramFacts.

(** ** Largest rectangle in a histogram: the scan of one row *)

Section RowScan.
Import Histogram.

Variable heights : list Z.
Variables w y : nat.
Hypothesis heights_length : List.length heights = w.

Lemma stk_ok_lt i stack :
  stk_ok heights i stack -> forall s, In s stack -> (s < i)%nat.
Proof.
  induction stack as [|t rest IH]; simpl; intros Hok s Hin; [contradiction|].
  destruct Hok as (Ht & _ & _ & Hrest).
  destruct Hin as [<-|Hin]; auto.
Qed.

Lemma stk_ok_nxt i stack : stk_ok heights i stack -> (nxt stack <= i)%nat.
Proof. destruct stack; simpl; [lia|]. intros (Ht & _). lia. Qed.

Lemma stk_ok_below i t rest :
  stk_ok heights i (t :: rest) -> forall s, In s rest -> (s < t)%nat /\ hget heights s <= hget heights t.
Proof.
  revert t. induction rest as [|u rest IH]; intros t Hok s Hin; [contradiction|].
  destruct Hok as (Ht & Hnxt & Hdom & Hrest). simpl in Hnxt.
  assert (Hu : hget heights u <= hget heights t).
  { destruct Hrest as (_ & Hnu & Hdu & _). apply Hdu. lia. }
  destruct Hin as [<-|Hin]; [split; [lia | exact Hu]|].
  destruct (IH u Hrest s Hin). split; lia.
Qed.

Lemma stk_ok_step i stack :
  stk_ok heights i stack ->
  (forall s, In s stack -> hget heights s <= hget heights i) ->
  stk_ok heights (S i) stack.
Proof.
  induction stack as [|t rest IH]; simpl; intros Hok Hle; [exact I|].
  destruct Hok as (Ht & Hnxt & Hdom & Hrest).
  repeat split; [lia | exact Hnxt | | apply IH; auto].
  intros j Hj. destruct (Nat.eq_dec j i) as [->|Hne]; [apply Hle; now left|].
  apply Hdom. lia.
Qed.

Lemma pop_spec i curH :
  (i <= w)%nat ->
  forall stack,
    stk_ok heights i stack ->
    (forall j, (nxt stack <= j < i)%nat -> curH <= hget heights j) ->
    stk_ok heights i (pop_rest heights curH stack) /\
    (forall j, (nxt (pop_rest heights curH stack) <= j < i)%nat -> curH <= hget heights j) /\
    (forall s, In s (pop_rest heights curH stack) -> hget heights s <= curH) /\
    (forall c, In c (pop_cands heights y i curH stack) -> cand_ok heights w y c) /\
    (forall l r k, (r <= i)%nat -> hist_rect heights w l r k ->
       alive heights stack l k ->
       alive heights (pop_rest heights curH stack) l k \/
       exists c, In c (pop_cands heights y i curH stack) /\
                 k * (Z.of_nat r - Z.of_nat l) <= bestArea c).
Proof.
  intros Hi. induction stack as [|s rest IH]; intros Hok Hcur.
  - simpl. repeat split; auto; contradiction.
  - pose proof Hok as Hok'. destruct Hok as (Hs & Hnxt & Hdom & Hrest).
    simpl pop_rest. simpl pop_cands.
    destruct (Z.ltb_spec curH (hget heights s)) as [Hlt|Hge].
    + assert (Hcur' : forall j, (nxt rest <= j < i)%nat -> curH <= hget heights j).
      { intros j Hj. specialize (Hdom j Hj). lia. }
      destruct (IH Hrest Hcur') as (I1 & I2 & I3 & I4 & I5).
      destruct (Z.leb_spec (hget heights s) 0) as [Hnp|Hpos].
      * repeat split; auto.
        intros l r k Hr Hrect [[_ Hk]|Hal].
        -- destruct Hrect as (_ & Hk1 & _). lia.
        -- eauto.
      * repeat split; auto.
        -- intros c [<-|Hc]; [|auto].
           exists (nxt rest), i, (hget heights s). split; [|reflexivity].
           repeat split; [lia | lia | lia | exact Hdom].
        -- intros l r k Hr Hrect [[Hl Hk]|Hal].
           ++ right. eexists. split; [now left|]. simpl.
              destruct Hrect as (Hlr & Hk1 & _). nia.
           ++ destruct (I5 l r k Hr Hrect Hal) as [Ha|(c & Hc & Hle)];
                [now left | right; exists c; split; [now right | exact Hle]].
    + repeat split; auto.
      * intros t [<-|Hin]; [exact Hge|].
        destruct (stk_ok_below i s rest Hok' t Hin). lia.
      * contradiction.
Qed.

Lemma alive_fresh l k :
  forall stack,
    (forall s, In s stack -> (l <= s)%nat -> k <= hget heights s) ->
    alive heights stack l k \/ (forall s, In s stack -> (s < l)%nat).
Proof.
  induction stack as [|s rest IH]; intros Hk.
  - right. intros s [].
  - destruct IH as [Hal|Hlt].
    + intros t Ht. apply Hk. now right.
    + left. now right.
    + destruct (le_lt_dec l s) as [Hls|Hsl].
      * left. left. split; [|apply Hk; [now left | exact Hls]].
        split; [|exact Hls].
        destruct rest as [|u rest]; simpl; [lia|].
        specialize (Hlt u (or_introl eq_refl)). lia.
      * right. intros t [<-|Ht]; auto.
Qed.

Lemma cur_height i :
  (i <= w)%nat -> (if (i =? w)%nat then 0 else hget heights i) = hget heights i.
Proof.
  intros Hi. destruct (Nat.eqb_spec i w) as [->|Hne]; [|reflexivity].
  symmetry. apply hget_overflow. lia.
Qed.

Lemma scan_inv_init : scan_inv heights w y 0 ([], []).
Proof.
  repeat split; simpl; auto; try contradiction.
  intros l r k Hr ((Hlr & _) & _). lia.
Qed.

Lemma scan_inv_step i st :
  (i <= w)%nat ->
  scan_inv heights w y i st ->
  scan_inv heights w y (S i) (cands_step heights w y st i).
Proof.
  intros Hi (Hnxt & Hok & Hcs & Hcov).
  unfold cands_step. rewrite (cur_height i Hi).
  destruct (pop_spec i (hget heights i) Hi (fst st) Hok) as (P1 & P2 & P3 & P4 & P5).
  { intros j Hj. lia. }
  assert (Hok' : stk_ok heights (S i) (i :: pop_rest heights (hget heights i) (fst st))).
  { simpl. repeat split.
    - lia.
    - now apply stk_ok_nxt.
    - intros j Hj. destruct (Nat.eq_dec j i) as [->|Hne]; [lia|].
      apply P2. lia.
    - now apply stk_ok_step. }
  split; [|split; [|split]]; simpl fst; simpl snd.
  - reflexivity.
  - exact Hok'.
  - intros c Hc. apply in_app_or in Hc. destruct Hc; auto.
  - intros l r k Hr Hrect.
    destruct (le_lt_dec r i) as [Hri|Hri].
    + destruct (Hcov l r k Hri Hrect) as [Hal|(c & Hc & Hle)].
      * destruct (P5 l r k Hri Hrect Hal) as [Ha|(c & Hc & Hle)].
        -- left. now right.
        -- right. exists c. split; [apply in_or_app; now right | exact Hle].
      * right. exists c. split; [apply in_or_app; now left | exact Hle].
    + left. destruct Hrect as (Hlr & Hk1 & Hk).
      destruct (alive_fresh l k (i :: pop_rest heights (hget heights i) (fst st)))
        as [Hal|Hlt]; [|exact Hal|].
      * intros s Hin Hls. apply Hk.
        pose proof (stk_ok_lt (S i) _ Hok' s Hin). lia.
      * specialize (Hlt i (or_introl eq_refl)). lia.
Qed.

Lemma scan_inv_final :
  scan_inv heights w y (S w) (fold_left (cands_step heights w y) (seq 0 (S w)) ([], [])).
Proof.
  apply (fold_left_seq_inv (cands_step heights w y) (scan_inv heights w y)).
  - exact scan_inv_init.
  - intros i st Hi. apply scan_inv_step. lia.
Qed.

Lemma alive_positive stack l k :
  alive heights stack l k -> exists s, In s stack /\ k <= hget heights s.
Proof.
  induction stack as [|s rest IH]; simpl; [contradiction|].
  intros [[_ Hk]|Hal]; [exists s; auto|].
  destruct (IH Hal) as (t & Ht & Hk). exists t; auto.
Qed.

(** Every candidate of the row is a rectangle under the histogram. *)
Lemma row_cands_sound c :
  In c (row_cands heights w y) -> cand_ok heights w y c.
Proof.
  destruct scan_inv_final as (_ & _ & Hcs & _). apply Hcs.
Qed.

(** Every rectangle under the histogram is inside a candidate of the row. *)
Lemma row_cands_complete l r k :
  hist_rect heights w l r k ->
  exists c, In c (row_cands heights w y) /\
            k * (Z.of_nat r - Z.of_nat l) <= bestArea c.
Proof.
  intros Hrect.
  destruct scan_inv_final as (Hnxt & Hok & _ & Hcov).
  destruct (Hcov l r k) as [Hal|Hc]; [destruct Hrect; lia | exact Hrect | | exact Hc].
  exfalso.
  destruct (alive_positive _ l k Hal) as (s & Hs & Hk).
  destruct Hrect as (_ & Hk1 & _).
  destruct (fst (fold_left (cands_step heights w y) (seq 0 (S w)) ([], [])))
    as [|t rest] eqn:E; [contradiction|].
  simpl in Hnxt. injection Hnxt as ->.
  assert (Hw : hget heights w = 0) by (apply hget_overflow; lia).
  destruct Hs as [<-|Hs]; [lia|].
  destruct (stk_ok_below (S w) w rest Hok s Hs). lia.
Qed.

End RowScan.

(** ** From the histogram to the grid *)

Section Grid.
Import Histogram.

Variable data : list Q.
Variable w : nat.
Variable THR : Q.

Lemma opq_opaque x y : opq data w THR x y = true <-> opaque data w THR x y.
Proof.
  unfold opq, opaque, alpha, alpha_ge.
  replace (y * w * 4 + x * 4 + 3)%nat with (4 * (y * w + x) + 3)%nat by lia.
  destruct (nth_error data (4 * (y * w + x) + 3)) as [a|].
  - rewrite Qle_bool_iff. split.
    + intros Ha. now exists a.
    + intros (a' & [= <-] & Ha). exact Ha.
  - split; [discriminate|]. intros (a' & [=] & _).
Qed.

Lemma run_le x y : (run data w THR x y <= S y)%nat.
Proof.
  induction y as [|y IH]; simpl; destruct (opq data w THR x _); lia.
Qed.

Lemma run_spec x : forall y k,
  (k <= run data w THR x y)%nat <->
  (k <= S y)%nat /\
  forall t, (S y - k <= t <= y)%nat -> opq data w THR x t = true.
Proof.
  induction y as [|y IH]; intros k; simpl run.
  - destruct (opq data w THR x 0) eqn:E.
    + split.
      * intros Hk. split; [exact Hk|]. intros t Ht.
        replace t with 0%nat by lia. exact E.
      * tauto.
    + split.
      * intros Hk. split; [lia|]. intros t Ht. lia.
      * intros (Hk & Ht). destruct k as [|k]; [lia|].
        rewrite Ht in E by lia. discriminate.
  - destruct (opq data w THR x (S y)) eqn:E.
    + destruct k as [|k].
      * split; [|lia]. intros _. split; [lia|]. intros t Ht. lia.
      * rewrite <- Nat.succ_le_mono, (IH k). split.
        -- intros (Hk & Ht). split; [lia|]. intros t Hr.
           destruct (Nat.eq_dec t (S y)) as [->|Hne]; [exact E|].
           apply Ht. lia.
        -- intros (Hk & Ht). split; [lia|]. intros t Hr. apply Ht. lia.
    + split.
      * intros Hk. split; [lia|]. intros t Ht. lia.
      * intros (Hk & Ht). destruct k as [|k]; [lia|].
        rewrite Ht in E by lia. discriminate.
Qed.

Lemma update_heights_length y heights :
  List.length (update_heights data w THR y heights) = w.
Proof. unfold update_heights. now rewrite length_map, length_seq. Qed.

Lemma heights_at_length y : List.length (heights_at data w THR y) = w.
Proof. destruct y; apply update_heights_length. Qed.

Lemma hget_repeat0 n x : hget (repeat 0 n) x = 0.
Proof.
  unfold hget. revert x. induction n as [|n IH]; intros [|x]; simpl; auto.
Qed.

(** While no column has run for [2^31] rows, the histogram holds the run
    lengths: no store wraps. *)
Lemma heights_at_run : forall y x,
  Z.of_nat (S y) < 2 ^ 31 -> (x < w)%nat ->
  hget (heights_at data w THR y) x = Z.of_nat (run data w THR x y).
Proof.
  induction y as [|y IH]; intros x Hy Hx.
  - simpl heights_at. unfold update_heights. rewrite hget_map_seq by exact Hx.
    simpl run. fold (opq data w THR x 0).
    destruct (opq data w THR x 0); [|reflexivity].
    rewrite hget_repeat0. reflexivity.
  - simpl heights_at. unfold update_heights. rewrite hget_map_seq by exact Hx.
    simpl run. fold (opq data w THR x (S y)).
    destruct (opq data w THR x (S y)); [|reflexivity].
    rewrite IH by (try exact Hx; lia).
    pose proof (run_le x y).
    rewrite int32_small; lia.
Qed.

Lemma cand_ok_grid h y c :
  Z.of_nat h < 2 ^ 31 -> (y < h)%nat ->
  cand_ok (heights_at data w THR y) w y c -> grid_cand data w THR h c.
Proof.
  intros Hh Hy (l & r & k & (Hlr & Hk1 & Hk) & ->).
  assert (Hrun : forall j, (l <= j < r)%nat -> (Z.to_nat k <= run data w THR j y)%nat).
  { intros j Hj. specialize (Hk j Hj).
    rewrite heights_at_run in Hk by lia. lia. }
  pose proof (Hrun l ltac:(lia)) as Hl. pose proof (run_le l y) as Hle.
  exists l, r, (S y - Z.to_nat k)%nat, (S y). repeat split; try lia.
  - intros x t Hx Ht. apply opq_opaque.
    apply (proj1 (run_spec x y (Z.to_nat k)) (Hrun x Hx)). lia.
  - assert (Ht : Z.of_nat (S y - Z.to_nat k) = Z.of_nat y + 1 - k) by lia.
    unfold cand. rewrite Ht. f_equal; lia.
Qed.

Lemma all_cands_sound h c :
  Z.of_nat h < 2 ^ 31 ->
  In c (all_cands data w h THR) -> grid_cand data w THR h c.
Proof.
  intros Hh Hc. unfold all_cands in Hc.
  apply in_flat_map in Hc. destruct Hc as (y & Hy & Hc).
  apply in_seq in Hy.
  apply (cand_ok_grid h y); [exact Hh | lia |].
  apply row_cands_sound; [apply heights_at_length | exact Hc].
Qed.

Lemma all_cands_complete h l r t b :
  Z.of_nat h < 2 ^ 31 ->
  (l < r <= w)%nat -> (t < b <= h)%nat ->
  all_opaque data w THR l r t b ->
  exists c, In c (all_cands data w h THR) /\
    (Z.of_nat r - Z.of_nat l) * (Z.of_nat b - Z.of_nat t) <= bestArea c.
Proof.
  intros Hh Hlr Htb Hop.
  destruct b as [|y]; [lia|].
  destruct (row_cands_complete (heights_at data w THR y) w y
              (heights_at_length y) l r (Z.of_nat (S y) - Z.of_nat t))
    as (c & Hc & Hle).
  - repeat split; try lia.
    intros j Hj. rewrite heights_at_run by lia.
    assert (Hk : (S y - t <= run data w THR j y)%nat).
    { apply run_spec. split; [lia|]. intros u Hu.
      apply opq_opaque. apply Hop; lia. }
    lia.
  - exists c. split; [|lia].
    unfold all_cands. apply in_flat_map. exists y. split; [|exact Hc].
    apply in_seq. lia.
Qed.

End Grid.

(** ** What the comparison of line 121 keeps *)

Section Adopt.
Import Histogram.

Lemma fold_adopt_first : forall cs b,
  (fold_left adopt cs b = b /\ forall c, In c cs -> bestArea c <= bestArea b) \/
  (exists pre post,
      cs = pre ++ fold_left adopt cs b :: post /\
      bestArea b < bestArea (fold_left adopt cs b) /\
      (forall c, In c pre -> bestArea c < bestArea (fold_left adopt cs b)) /\
      (forall c, In c post -> bestArea c <= bestArea (fold_left adopt cs b))).
Proof.
  induction cs as [|c cs IH]; intros b; simpl.
  - left. split; [reflexivity | contradiction].
  - unfold adopt at 2 4 6 8 10. destruct (Z.gtb_spec (bestArea c) (bestArea b)) as [Hgt|Hle].
    + right. destruct (IH c) as [(Heq & Hall)|(pre & post & Hcs & Hlt & Hpre & Hpost)].
      * exists [], cs. rewrite Heq. repeat split; auto; try contradiction; lia.
      * exists (c :: pre), post. repeat split; auto.
        -- simpl. now rewrite <- Hcs.
        -- lia.
        -- intros c' [<-|Hc']; auto.
    + destruct (IH b) as [(Heq & Hall)|(pre & post & Hcs & Hlt & Hpre & Hpost)].
      * left. split; [exact Heq|]. intros c' [<-|Hc']; auto.
      * right. exists (c :: pre), post. repeat split; auto.
        -- simpl. now rewrite <- Hcs.
        -- intros c' [<-|Hc']; auto. lia.
Qed.

End Adopt.

(** ** The rectangle the histogram-stack search returns *)

Section Finder.
Import Histogram HistogramFacts.

Variable data : list Q.
Variables w h : nat.
Variable THR : Q.

(** Either no candidate has a positive area and nothing is found, or the
    state found is the first candidate of the largest area. *)
Lemma findBest_cases :
  (findBest data w h THR = None /\
   forall c, In c (all_cands data w h THR) -> bestArea c <= 0) \/
  (exists b pre post,
     findBest data w h THR = Some b /\
     all_cands data w h THR = pre ++ b :: post /\
     0 < bestArea b /\
     (forall c, In c pre -> bestArea c < bestArea b) /\
     (forall c, In c post -> bestArea c <= bestArea b)).
Proof.
  unfold findBest. rewrite search_trace.
  destruct (fold_adopt_first (all_cands data w h THR) init_best)
    as [(Heq & Hall)|(pre & post & Hcs & Hlt & Hpre & Hpost)].
  - left. rewrite Heq. simpl. split; [reflexivity | exact Hall].
  - right. simpl bestArea in Hlt.
    exists (fold_left adopt (all_cands data w h THR) init_best), pre, post.
    destruct (Z.leb_spec (bestArea (fold_left adopt (all_cands data w h THR) init_best)) 0);
      [lia|].
    repeat split; auto.
Qed.

Lemma findBest_area_max b c :
  findBest data w h THR = Some b ->
  In c (all_cands data w h THR) -> bestArea c <= bestArea b.
Proof.
  intros Hb Hc.
  destruct findBest_cases as [(Hn & _)|(b' & pre & post & Hb' & Hcs & _ & Hpre & Hpost)];
    [congruence|].
  assert (b' = b) by congruence. subst b'.
  rewrite Hcs in Hc. apply in_app_or in Hc.
  destruct Hc as [Hc|[<-|Hc]]; [apply Hpre in Hc; lia | lia | auto].
Qed.

Lemma findBest_in_cands b :
  findBest data w h THR = Some b -> In b (all_cands data w h THR).
Proof.
  intros Hb.
  destruct findBest_cases as [(Hn & _)|(b' & pre & post & Hb' & Hcs & _)];
    [congruence|].
  assert (b' = b) by congruence. subst b'.
  rewrite Hcs. apply in_or_app. right. now left.
Qed.

Lemma findBest_some_of_opaque x y :
  Z.of_nat h < 2 ^ 31 ->
  (x < w)%nat -> (y < h)%nat -> opaque data w THR x y ->
  exists b, findBest data w h THR = Some b.
Proof.
  intros Hh Hx Hy Hop.
  destruct (all_cands_complete data w THR h x (S x) y (S y)) as (c & Hc & Hle);
    try lia.
  { intros x' y' Hx' Hy'.
    replace x' with x by lia. replace y' with y by lia. exact Hop. }
  destruct findBest_cases as [(_ & Hall)|(b & _ & _ & Hb & _)];
    [|now exists b].
  specialize (Hall c Hc). lia.
Qed.

(** What is found is a rectangle of opaque pixels of the largest area. *)
Lemma findBest_maximal b :
  Z.of_nat h < 2 ^ 31 ->
  findBest data w h THR = Some b ->
  grid_cand data w THR h b /\
  forall l r t bt : nat,
    (l < r <= w)%nat -> (t < bt <= h)%nat ->
    all_opaque data w THR l r t bt ->
    (Z.of_nat r - Z.of_nat l) * (Z.of_nat bt - Z.of_nat t) <= bestArea b.
Proof.
  intros Hh Hb. split.
  - apply all_cands_sound; [exact Hh | now apply findBest_in_cands].
  - intros l r t bt Hlr Htb Hall.
    destruct (all_cands_complete data w THR h l r t bt Hh Hlr Htb Hall)
      as (c & Hc & Hle).
    pose proof (findBest_area_max b c Hb Hc). lia.
Qed.

End Finder.

(** ** Grids without an opaque pixel *)

Section Transparent.
Import Histogram HistogramFacts.

Variable data : list Q.
Variables w h : nat.
Variable THR : Q.

Hypothesis below :
  forall x y a, (x < w)%nat -> (y < h)%nat ->
    alpha data w x y = Some a -> (a < THR)%Q.

Lemma below_opq x y : (x < w)%nat -> (y < h)%nat -> opq data w THR x y = false.
Proof.
  intros Hx Hy. destruct (opq data w THR x y) eqn:E; [|reflexivity].
  apply opq_opaque in E. destruct E as (a & Ha & Hle).
  pose proof (below x y a Hx Hy Ha). lra.
Qed.

Lemma below_update y heights :
  (y < h)%nat -> update_heights data w THR y heights = repeat 0 w.
Proof.
  intros Hy. unfold update_heights.
  rewrite (map_ext_in _ (fun _ => 0)).
  - clear. generalize 0%nat. induction w as [|n IH]; intros s; simpl; [reflexivity|].
    now rewrite IH.
  - intros x Hx. apply in_seq in Hx.
    fold (opq data w THR x y). rewrite below_opq by lia. reflexivity.
Qed.

Lemma below_heights_at y : (y < h)%nat -> heights_at data w THR y = repeat 0 w.
Proof. intros Hy. destruct y; simpl; now apply below_update. Qed.

Lemma pop_cands_flat y i stack : pop_cands (repeat 0 w) y i 0 stack = [].
Proof. destruct stack; simpl; [|rewrite hget_repeat0]; reflexivity. Qed.

Lemma row_cands_flat y : row_cands (repeat 0 w) w y = [].
Proof.
  unfold row_cands.
  apply (fold_left_seq_inv (cands_step (repeat 0 w) w y) (fun _ st => snd st = [])).
  - reflexivity.
  - intros i st _ Hst. unfold cands_step. simpl snd. rewrite Hst.
    rewrite hget_repeat0.
    destruct (i =? w)%nat; apply pop_cands_flat.
Qed.

Lemma below_all_cands : all_cands data w h THR = [].
Proof.
  unfold all_cands.
  assert (Hrows : forall y, In y (seq 0 h) ->
            row_cands (heights_at data w THR y) w y = []).
  { intros y Hy. apply in_seq in Hy.
    rewrite below_heights_at by lia. apply row_cands_flat. }
  induction (seq 0 h) as [|y ys IH]; simpl; [reflexivity|].
  rewrite Hrows by now left. apply IH. intros y' Hy'. apply Hrows. now right.
Qed.

Lemma below_findBest : findBest data w h THR = None.
Proof.
  unfold findBest. now rewrite search_trace, below_all_cands.
Qed.

Lemma below_row_profile y :
  (y < h)%nat -> RowProfile.row_profile data w THR y = (-1, -1).
Proof.
  intros Hy. unfold RowProfile.row_profile.
  destruct (find _ (seq 0 w)) as [l|] eqn:E; [|reflexivity].
  apply find_some in E. destruct E as (Hl & E). apply in_seq in Hl.
  fold (opq data w THR l y) in E. rewrite below_opq in E by lia. discriminate.
Qed.

End Transparent.

Section Widest.
Import RowProfile.

Variables L R : list Z.

Lemma widest_fold_none : forall ys st,
  (forall y, In y ys -> hget L y < 0) ->
  fold_left (widest_step L R) ys st = st.
Proof.
  induction ys as [|y ys IH]; intros st Hneg; simpl; [reflexivity|].
  unfold widest_step at 2.
  destruct (Z.geb_spec (hget L y) 0) as [Hge|_].
  - specialize (Hneg y (or_introl eq_refl)). lia.
  - apply IH. intros y' Hy'. apply Hneg. now right.
Qed.

Lemma widest_fold_found : forall ys st,
  0 <= fst st -> 0 <= fst (fold_left (widest_step L R) ys st).
Proof.
  induction ys as [|y ys IH]; intros st Hst; simpl; [exact Hst|].
  apply IH. unfold widest_step.
  destruct (hget L y >=? 0); [|exact Hst].
  destruct (hget R y - hget L y >? snd st); [simpl; lia | exact Hst].
Qed.

Lemma widest_fold_some : forall ys y,
  In y ys -> 0 <= hget L y <= hget R y ->
  0 <= fst (fold_left (widest_step L R) ys (-1, -1)).
Proof.
  induction ys as [|y' ys IH]; intros y Hin Hy; [contradiction|].
  simpl. unfold widest_step at 2. simpl snd.
  destruct (Z.geb_spec (hget L y') 0) as [Hge|Hlt].
  - destruct (Z.gtb_spec (hget R y' - hget L y') (-1)) as [Hgt|Hle].
    + apply widest_fold_found. simpl. lia.
    + destruct Hin as [->|Hin]; [lia | now apply (IH y)].
  - destruct Hin as [->|Hin]; [lia | now apply (IH y)].
Qed.

End Widest.

(** ** The row-profile search finds something exactly on grids with an opaque
    pixel *)

Section ProfileFound.
Import RowProfile.

Variable data : list Q.
Variables w h : nat.
Variable THR : Q.

Lemma profile_findBest_none :
  findBest data w h THR = None <->
  widest_row (profileL data w h THR) (profileR data w h THR) h < 0.
Proof.
  unfold findBest.
  destruct (Z.ltb_spec (widest_row (profileL data w h THR) (profileR data w h THR) h) 0).
  - tauto.
  - split; [discriminate | lia].
Qed.

Lemma profileL_get y :
  (y < h)%nat -> hget (profileL data w h THR) y = fst (row_profile data w THR y).
Proof. intros Hy. unfold profileL. now rewrite hget_map_seq. Qed.

Lemma profileR_get y :
  (y < h)%nat -> hget (profileR data w h THR) y = snd (row_profile data w THR y).
Proof. intros Hy. unfold profileR. now rewrite hget_map_seq. Qed.

Lemma below_profile_none :
  (forall x y a, (x < w)%nat -> (y < h)%nat ->
     alpha data w x y = Some a -> (a < THR)%Q) ->
  findBest data w h THR = None.
Proof.
  intros Hbelow. apply profile_findBest_none. unfold widest_row.
  rewrite widest_fold_none; [simpl; lia|].
  intros y Hy. apply in_seq in Hy.
  rewrite profileL_get, (below_row_profile data w h THR Hbelow) by lia.
  simpl. lia.
Qed.

Lemma find_seq_first (f : nat -> bool) : forall n s l,
  find f (seq s n) = Some l -> forall x, (s <= x < l)%nat -> f x = false.
Proof.
  induction n as [|n IH]; intros s l Hf x Hx; simpl in Hf; [discriminate|].
  destruct (f s) eqn:E.
  - injection Hf as <-. lia.
  - destruct (Nat.eq_dec x s) as [->|Hne]; [exact E|].
    apply (IH (S s) l Hf). lia.
Qed.

(** A row with an opaque pixel has a profile [0 <= L <= R], as long as the
    column indices fit 32 bits. *)
Lemma row_profile_some x y :
  Z.of_nat w < 2 ^ 31 -> (x < w)%nat -> opq data w THR x y = true ->
  0 <= fst (row_profile data w THR y) <= snd (row_profile data w THR y).
Proof.
  intros Hw Hx Hop. unfold row_profile.
  change (fun x0 => alpha_ge data THR (y * w * 4 + x0 * 4 + 3))
    with (fun x0 => opq data w THR x0 y).
  destruct (find _ (seq 0 w)) as [l|] eqn:El.
  - pose proof (find_seq_first _ _ _ _ El) as Hfirst.
    apply find_some in El. destruct El as (Hl & _). apply in_seq in Hl.
    destruct (find _ (rev (seq 0 w))) as [r|] eqn:Er.
    + apply find_some in Er. destruct Er as (Hr & Hopr).
      apply in_rev, in_seq in Hr.
      assert (Hlr : (l <= r)%nat).
      { destruct (le_lt_dec l r) as [Hle|Hlt]; [exact Hle|].
        rewrite Hfirst in Hopr by lia. discriminate. }
      simpl. rewrite !int32_small; lia.
    + exfalso. rewrite (find_none _ _ Er x) in Hop; [discriminate|].
      apply -> in_rev. apply in_seq. lia.
  - exfalso. rewrite (find_none _ _ El x) in Hop; [discriminate|].
    apply in_seq. lia.
Qed.

Lemma opaque_profile_some x y :
  Z.of_nat w < 2 ^ 31 ->
  (x < w)%nat -> (y < h)%nat -> opaque data w THR x y ->
  exists b, findBest data w h THR = Some b.
Proof.
  intros Hw Hx Hy Hop. apply opq_opaque in Hop.
  destruct (findBest data w h THR) as [b|] eqn:E; [now exists b|].
  exfalso. apply profile_findBest_none in E.
  pose proof (row_profile_some x y Hw Hx Hop) as Hrow.
  rewrite <- profileL_get, <- profileR_get in Hrow by exact Hy.
  pose proof (widest_fold_some (profileL data w h THR) (profileR data w h THR)
                (seq 0 h) y) as Hf.
  unfold widest_row in E.
  specialize (Hf ltac:(apply in_seq; lia) Hrow). lia.
Qed.

End ProfileFound.

(** C6. When every sample of the grid is strictly below the threshold, both
    searches find nothing, and [runCrop], given such a grid by the host,
    returns without an error and without a call of [doc.crop]. *)
Theorem below_threshold_no_crop (data : list Q) (w h : nat) (THR : Q) :
  (forall x y a, (x < w)%nat -> (y < h)%nat ->
     alpha data w x y = Some a -> (a < THR)%Q) ->
  Histogram.findMaxRectangle data w h THR = None /\
  RowProfile.findRectangle data w h THR = None /\
  forall (width height offX offY : Z) (io : ImageObj) (idata : ImageData),
    imageData io = Some idata ->
    getData idata (strict_eq_num (componentSize idata) 16) = Some data ->
    alphaThreshold (componentSize idata) = THR ->
    bounds_of width height io = {| left := offX; top := offY;
                                   right := offX + Z.of_nat w;
                                   bottom := offY + Z.of_nat h |} ->
    (forall region, ~ In (Crop region) (fst (Histogram.runCrop width height (Some io)))) /\
    snd (Histogram.runCrop width height (Some io)) = Returned /\
    (forall region, ~ In (Crop region) (fst (RowProfile.runCrop width height (Some io)))) /\
    snd (RowProfile.runCrop width height (Some io)) = Returned.
Proof.
  intros Hbelow.
  pose proof (below_findBest data w h THR Hbelow) as Hhist.
  pose proof (below_profile_none data w h THR Hbelow) as Hprof.
  split; [unfold Histogram.findMaxRectangle; now rewrite Hhist|].
  split; [unfold RowProfile.findRectangle; now rewrite Hprof|].
  intros width height offX offY io idata Hio Hdata Hthr Hsb.
  assert (Hd : (if strict_eq_num (componentSize idata) 16
                then getData idata true else getData idata false) = Some data).
  { destruct (strict_eq_num (componentSize idata) 16); exact Hdata. }
  assert (Hnot : forall region, ~ In (Crop region) [Dispose]).
  { intros region [Hc|[]]. discriminate. }
  unfold Histogram.runCrop, RowProfile.runCrop.
  fold (bounds_of width height io).
  rewrite Hio, Hd, Hsb, Hthr. simpl left; simpl right; simpl top; simpl bottom.
  replace (offX + Z.of_nat w - offX) with (Z.of_nat w) by lia.
  replace (offY + Z.of_nat h - offY) with (Z.of_nat h) by lia.
  rewrite !Nat2Z.id, Hhist, Hprof.
  destruct (Z.ltb_spec (Z.of_nat w) 0); [lia|].
  destruct (Z.ltb_spec (Z.of_nat h) 0); [lia|].
  destruct (negb (components idata =? 4)); [repeat split; auto|].
  destruct data; repeat split; auto.
Qed.

Lemma below_threshold_no_crop_witness :
  Histogram.findMaxRectangle (rgba [[0; 1]]%Q) 2 1 2 = None /\
  RowProfile.findRectangle (rgba [[0; 1]]%Q) 2 1 2 = None /\
  snd (Histogram.runCrop 2 1 (Some (image_of 8 (rgba [[0; 1]]%Q) None))) = Returned /\
  snd (RowProfile.runCrop 2 1 (Some (image_of 8 (rgba [[0; 1]]%Q) None))) = Returned.
Proof.
  destruct (below_threshold_no_crop (rgba [[0; 1]]%Q) 2 1 2) as (H1 & H2 & H3).
  - intros x y a Hx Hy.
    assert (Hc : (x = 0 \/ x = 1)%nat /\ y = 0%nat) by lia.
    destruct Hc as ([-> | ->] & ->); intros [= <-]; reflexivity.
  - split; [exact H1|]. split; [exact H2|].
    destruct (H3 2 1 0 0 (image_of 8 (rgba [[0; 1]]%Q) None)
                {| components := 4; componentSize := JNum 8;
                   getData := fun _ => Some (rgba [[0; 1]]%Q) |})
      as (_ & Hr1 & _ & Hr2); try reflexivity.
    split; [exact Hr1 | exact Hr2].
Defined.

(** ** The two searches compared *)

(** C2, as stated, fails: on a single opaque pixel the histogram-stack search
    returns [{left: 0, right: 1, top: 0, bottom: 1}] and the row-profile
    search [{left: 0, right: 0, top: 0, bottom: 0}]. *)
Lemma searches_differ :
  Histogram.findMaxRectangle (rgba [[255]]%Q) 1 1 2 = Some (mkRect 0 0 1 1) /\
  RowProfile.findRectangle (rgba [[255]]%Q) 1 1 2 = Some (mkRect 0 0 0 0) /\
  Histogram.findMaxRectangle (rgba [[255]]%Q) 1 1 2 <>
  RowProfile.findRectangle (rgba [[255]]%Q) 1 1 2.
Proof.
  split; [reflexivity|]. split; [reflexivity|].
  vm_compute. discriminate.
Qed.

(** C2, amended. On a grid whose width and height are below [2^31], either
    both searches find no rectangle or both find one: each finds a rectangle
    exactly when some sample of the grid is at or above the threshold. *)
Theorem searches_agree_on_none (data : list Q) (w h : nat) (THR : Q) :
  Z.of_nat w < 2 ^ 31 -> Z.of_nat h < 2 ^ 31 ->
  (Histogram.findMaxRectangle data w h THR = None <->
   RowProfile.findRectangle data w h THR = None) /\
  (Histogram.findMaxRectangle data w h THR <> None <->
   exists x y, (x < w)%nat /\ (y < h)%nat /\ opaque data w THR x y).
Proof.
  intros Hw Hh.
  assert (Hdec : (exists x y, (x < w)%nat /\ (y < h)%nat /\ opaque data w THR x y) \/
                 (forall x y a, (x < w)%nat -> (y < h)%nat ->
                    alpha data w x y = Some a -> (a < THR)%Q)).
  { destruct (Histogram.findBest data w h THR) as [b|] eqn:E.
    - left. destruct (findBest_maximal data w h THR b Hh E)
        as ((l & r & t & bt & Hlr & Htb & Hall & _) & _).
      exists l, t. repeat split; try lia. apply Hall; lia.
    - right. intros x y a Hx Hy Ha.
      destruct (Qlt_le_dec a THR) as [Hlt|Hle]; [exact Hlt|].
      destruct (findBest_some_of_opaque data w h THR x y Hh Hx Hy) as (b & Hb);
        [now exists a | congruence]. }
  unfold Histogram.findMaxRectangle, RowProfile.findRectangle.
  destruct Hdec as [(x & y & Hx & Hy & Hop)|Hbelow].
  - destruct (findBest_some_of_opaque data w h THR x y Hh Hx Hy Hop) as (b1 & ->).
    destruct (opaque_profile_some data w h THR x y Hw Hx Hy Hop) as (b2 & ->).
    simpl. repeat split; try discriminate; eauto.
  - rewrite (below_findBest data w h THR Hbelow),
            (below_profile_none data w h THR Hbelow).
    simpl. repeat split; auto; try congruence.
    intros (x & y & Hx & Hy & a & Ha & Hle).
    pose proof (Hbelow x y a Hx Hy Ha). lra.
Qed.

Lemma searches_agree_on_none_witness :
  Histogram.findMaxRectangle (rgba [[0; 1]]%Q) 2 1 2 = None <->
  RowProfile.findRectangle (rgba [[0; 1]]%Q) 2 1 2 = None.
Proof.
  apply (searches_agree_on_none (rgba [[0; 1]]%Q) 2 1 2); reflexivity.
Defined.

(** ** Disposal of the pixel buffer *)

(** X6. The row-profile revision disposes of the buffer exactly once on every
    path that acquired it and returns. *)
Lemma rowprofile_runCrop_disposes_once width height io idata :
  imageData io = Some idata ->
  snd (RowProfile.runCrop width height (Some io)) = Returned ->
  disposals (fst (RowProfile.runCrop width height (Some io))) = 1%nat.
Proof.
  intros Hio. unfold RowProfile.runCrop. rewrite Hio.
  destruct (negb (components idata =? 4)); [reflexivity|].
  destruct (if strict_eq_num (componentSize idata) 16
            then getData idata true else getData idata false) as [[|a data]|];
    try reflexivity.
  destruct (_ <? 0); [discriminate|].
  destruct (RowProfile.findBest _ _ _ _); [|reflexivity].
  destruct (cropRegion _ _ _ _ _); reflexivity.
Qed.

(** X8. The histogram-stack revision: once a rectangle is found the trace is the
    crop alone, or empty when the inset leaves nothing; [dispose] is not
    called. *)
Lemma histogram_runCrop_found width height io idata data b :
  imageData io = Some idata ->
  components idata = 4 ->
  getData idata (strict_eq_num (componentSize idata) 16) = Some data ->
  0 <= right (bounds_of width height io) - left (bounds_of width height io) ->
  Histogram.findBest data
    (Z.to_nat (right (bounds_of width height io) - left (bounds_of width height io)))
    (Z.to_nat (bottom (bounds_of width height io) - top (bounds_of width height io)))
    (alphaThreshold (componentSize idata)) = Some b ->
  disposals (fst (Histogram.runCrop width height (Some io))) = 0%nat /\
  snd (Histogram.runCrop width height (Some io)) = Returned.
Proof.
  intros Hio Hcomp Hdata Hw Hb.
  assert (Hne : data <> []).
  { intros ->.
    rewrite (below_findBest [] _ _ _) in Hb; [discriminate|].
    intros x y a _ _ Ha. unfold alpha in Ha.
    destruct (4 * (y * _ + x) + 3)%nat; discriminate. }
  unfold Histogram.runCrop. rewrite Hio, Hcomp.
  replace (if strict_eq_num (componentSize idata) 16
           then getData idata true else getData idata false) with (Some data)
    by (destruct (strict_eq_num (componentSize idata) 16); now rewrite Hdata).
  simpl negb. cbv iota.
  destruct data as [|a data]; [congruence|].
  fold (bounds_of width height io).
  destruct (Z.ltb_spec (right (bounds_of width height io)
                        - left (bounds_of width height io)) 0); [lia|].
  rewrite Hb.
  destruct (cropRegion _ _ _ _ _); split; reflexivity.
Qed.

(** X7. The histogram-stack revision disposes of the buffer once on each of its
    early exits: no alpha channel, no data, no rectangle. *)
Lemma histogram_runCrop_early_exits width height io idata :
  imageData io = Some idata ->
  components idata <> 4 \/
  getData idata (strict_eq_num (componentSize idata) 16) = None \/
  getData idata (strict_eq_num (componentSize idata) 16) = Some [] \/
  (exists data,
      getData idata (strict_eq_num (componentSize idata) 16) = Some data /\
      0 <= right (bounds_of width height io) - left (bounds_of width height io) /\
      Histogram.findBest data
        (Z.to_nat (right (bounds_of width height io) - left (bounds_of width height io)))
        (Z.to_nat (bottom (bounds_of width height io) - top (bounds_of width height io)))
        (alphaThreshold (componentSize idata)) = None) ->
  Histogram.runCrop width height (Some io) = ([Dispose], Returned).
Proof.
  intros Hio Hexit. unfold Histogram.runCrop. rewrite Hio.
  fold (bounds_of width height io).
  replace (if strict_eq_num (componentSize idata) 16
           then getData idata true else getData idata false)
    with (getData idata (strict_eq_num (componentSize idata) 16))
    by (now destruct (strict_eq_num (componentSize idata) 16)).
  destruct (Z.eqb_spec (components idata) 4) as [Hc|Hc]; simpl negb; cbv iota;
    [|reflexivity].
  destruct Hexit as [Hn|[Hd|[Hd|(data & Hd & Hw & Hb)]]];
    [contradiction | now rewrite Hd | now rewrite Hd |].
  rewrite Hd. destruct data as [|a data]; [reflexivity|].
  destruct (Z.ltb_spec (right (bounds_of width height io)
                        - left (bounds_of width height io)) 0); [lia|].
  now rewrite Hb.
Qed.

(** C3 fails on src/main.js: on a fully opaque 3x3 layer of an 8-bit 3x3
    document the crop is applied and the call returns without a call of
    [dispose]; the row-profile revision, on the same input, disposes once. *)
Theorem histogram_runCrop_success_no_dispose :
  Histogram.runCrop 3 3
    (Some (image_of 8 (rgba [[255; 255; 255]; [255; 255; 255]; [255; 255; 255]]%Q) None))
  = ([Crop {| left := 1; top := 1; right := 2; bottom := 2 |}], Returned) /\
  disposals (fst (Histogram.runCrop 3 3
    (Some (image_of 8 (rgba [[255; 255; 255]; [255; 255; 255]; [255; 255; 255]]%Q) None))))
  = 0%nat /\
  disposals (fst (RowProfile.runCrop 3 3
    (Some (image_of 8 (rgba [[255; 255; 255]; [255; 255; 255]; [255; 255; 255]]%Q) None))))
  = 1%nat.
Proof. repeat split; vm_compute; reflexivity. Qed.

(** ** Threshold and coordinate mapping *)

(** C7. [alphaThreshold] returns a value on every input: 256 on the number 16,
    0.002 on the number 32, and 2 on every other value, 8 among them. *)
Theorem alphaThreshold_total :
  (forall q, (q == 16)%Q -> alphaThreshold (JNum q) = 256%Q) /\
  (forall q, (q == 32)%Q -> alphaThreshold (JNum q) = 0.002%Q) /\
  alphaThreshold (JNum 8) = 2%Q /\
  (forall v, (forall q, v = JNum q -> ~ (q == 16)%Q /\ ~ (q == 32)%Q) ->
             alphaThreshold v = 2%Q) /\
  (forall v, alphaThreshold v = 256%Q \/ alphaThreshold v = 0.002%Q \/
             alphaThreshold v = 2%Q).
Proof.
  split; [|split; [|split; [|split]]].
  - intros q Hq. unfold alphaThreshold, strict_eq_num.
    apply Qeq_bool_iff in Hq. now rewrite Hq.
  - intros q Hq. unfold alphaThreshold, strict_eq_num.
    assert (H16 : Qeq_bool q 16 = false).
    { destruct (Qeq_bool q 16) eqn:E; [|reflexivity].
      apply Qeq_bool_iff in E. rewrite E in Hq. discriminate. }
    apply Qeq_bool_iff in Hq. now rewrite H16, Hq.
  - reflexivity.
  - intros v Hv. unfold alphaThreshold, strict_eq_num.
    destruct v as [| |b|q|s]; try reflexivity.
    destruct (Hv q eq_refl) as (H16 & H32).
    destruct (Qeq_bool q 16) eqn:E16; [apply Qeq_bool_iff in E16; contradiction|].
    destruct (Qeq_bool q 32) eqn:E32; [apply Qeq_bool_iff in E32; contradiction|].
    reflexivity.
  - intros v. unfold alphaThreshold.
    destruct (strict_eq_num v 16); [now left|].
    destruct (strict_eq_num v 32); [right; now left | right; now right].
Qed.

Lemma alphaThreshold_total_witness :
  alphaThreshold (JNum (32 # 2)) = 256%Q /\
  alphaThreshold (JNum (64 # 2)) = 0.002%Q /\
  alphaThreshold (JStr "16") = 2%Q.
Proof.
  destruct alphaThreshold_total as (H16 & H32 & _ & Hother & _).
  split; [apply H16; reflexivity|].
  split; [apply H32; reflexivity|].
  apply Hother. intros q Hq. discriminate.
Defined.

Lemma clamp_saturates v lo hi :
  lo <= hi ->
  lo <= clamp v lo hi <= hi /\
  (v < lo -> clamp v lo hi = lo) /\
  (lo <= v <= hi -> clamp v lo hi = v) /\
  (hi < v -> clamp v lo hi = hi).
Proof. unfold clamp. lia. Qed.

Lemma clamp_monotone v v' lo hi : v <= v' -> clamp v lo hi <= clamp v' lo hi.
Proof. unfold clamp. lia. Qed.

(** C4. The crop region is the found rectangle moved by the offset, shrunk by
    the inset on its four sides and clamped to the document; it is produced
    exactly when [cropLeft < cropRight] and [cropTop < cropBottom]. The
    rectangle [{left: 2, right: 8, top: 1, bottom: 5}] at offset (0,0) in a
    10x10 document gives [{left: 3, right: 7, top: 2, bottom: 4}], and a
    rectangle no wider than twice the inset gives no crop. *)
Theorem cropRegion_clamped (r : rect) (offX offY width height : Z) :
  let cropLeft := clamp (offX + left r + INSET) 0 width in
  let cropRight := clamp (offX + right r - INSET) 0 width in
  let cropTop := clamp (offY + top r + INSET) 0 height in
  let cropBottom := clamp (offY + bottom r - INSET) 0 height in
  (cropLeft < cropRight /\ cropTop < cropBottom ->
   cropRegion r offX offY width height =
   Some {| left := cropLeft; top := cropTop;
           right := cropRight; bottom := cropBottom |}) /\
  (~ (cropLeft < cropRight /\ cropTop < cropBottom) ->
   cropRegion r offX offY width height = None) /\
  cropRegion {| left := 2; top := 1; right := 8; bottom := 5 |} 0 0 10 10 =
  Some {| left := 3; top := 2; right := 7; bottom := 4 |} /\
  (right r - left r <= 2 * INSET ->
   cropRegion r offX offY width height = None).
Proof.
  intros cropLeft cropRight cropTop cropBottom.
  subst cropLeft cropRight cropTop cropBottom. unfold cropRegion, clamp.
  destruct (Z.ltb_spec (Z.min width (Z.max 0 (offX + left r + INSET)))
                       (Z.min width (Z.max 0 (offX + right r - INSET)))) as [Hx|Hx];
    destruct (Z.ltb_spec (Z.min height (Z.max 0 (offY + top r + INSET)))
                         (Z.min height (Z.max 0 (offY + bottom r - INSET)))) as [Hy|Hy];
    simpl; repeat split; intros; try reflexivity; try lia; exfalso; try tauto;
    unfold INSET in *; lia.
Qed.

Lemma cropRegion_clamped_witness :
  cropRegion {| left := 2; top := 1; right := 8; bottom := 5 |} 0 0 10 10 =
  Some {| left := 3; top := 2; right := 7; bottom := 4 |} /\
  cropRegion {| left := 2; top := 1; right := 4; bottom := 5 |} 0 0 10 10 = None /\
  cropRegion {| left := 2; top := 1; right := 8; bottom := 2 |} 0 0 10 10 = None.
Proof.
  pose proof (cropRegion_clamped {| left := 2; top := 1; right := 8; bottom := 5 |}
                0 0 10 10) as (Hsome & _).
  pose proof (cropRegion_clamped {| left := 2; top := 1; right := 4; bottom := 5 |}
                0 0 10 10) as (_ & _ & _ & Hnarrow).
  pose proof (cropRegion_clamped {| left := 2; top := 1; right := 8; bottom := 2 |}
                0 0 10 10) as (_ & Hnone & _).
  split; [apply Hsome; vm_compute; split; reflexivity|].
  split; [apply Hnarrow; vm_compute; discriminate|].
  apply Hnone. vm_compute. intros (_ & Hlt). discriminate.
Defined.

(** ** Ties *)

Section Ties.
Import Histogram HistogramFacts.

Variable data : list Q.
Variable w : nat.
Variable THR : Q.

Lemma pop_cands_bottom heights y i curH c : forall stack,
  In c (pop_cands heights y i curH stack) -> bestB c = Z.of_nat y + 1.
Proof.
  induction stack as [|s rest IH]; simpl; [contradiction|].
  destruct (curH <? hget heights s); [|contradiction].
  destruct (hget heights s <=? 0); [exact IH|].
  intros [<-|Hc]; [reflexivity | auto].
Qed.

Lemma row_cands_bottom heights y c :
  In c (row_cands heights w y) -> bestB c = Z.of_nat y + 1.
Proof.
  revert c. unfold row_cands.
  apply (fold_left_seq_inv (cands_step heights w y)
           (fun _ st => forall c, In c (snd st) -> bestB c = Z.of_nat y + 1)).
  - intros c [].
  - intros i st _ Hst c Hc. unfold cands_step in Hc. simpl snd in Hc.
    apply in_app_or in Hc. destruct Hc as [Hc|Hc]; [auto|].
    now apply pop_cands_bottom in Hc.
Qed.

Lemma all_cands_bottom h c :
  In c (all_cands data w h THR) -> 1 <= bestB c <= Z.of_nat h.
Proof.
  unfold all_cands. intros Hc. apply in_flat_map in Hc.
  destruct Hc as (y & Hy & Hc). apply in_seq in Hy.
  apply row_cands_bottom in Hc. lia.
Qed.

(** The candidates come row after row: before a candidate only bottom edges
    at or above its own, after it only bottom edges at or below. *)
Lemma all_cands_rows : forall h pre b post,
  all_cands data w h THR = pre ++ b :: post ->
  (forall c, In c pre -> bestB c <= bestB b) /\
  (forall c, In c post -> bestB b <= bestB c).
Proof.
  induction h as [|h IH]; intros pre b post Heq.
  - destruct pre; discriminate.
  - rewrite all_cands_S in Heq.
    assert (Hrow : forall c, In c (row_cands (heights_at data w THR h) w h) ->
              bestB c = Z.of_nat h + 1) by (intros c; apply row_cands_bottom).
    pose proof (all_cands_bottom h) as Hold.
    apply app_eq_app in Heq. destruct Heq as (l & [(Ha & Hb)|(Ha & Hb)]).
    + destruct l as [|b' l].
      * simpl in Hb. rewrite app_nil_r in Ha. subst pre.
        assert (Hbb : bestB b = Z.of_nat h + 1) by (apply Hrow; rewrite <- Hb; now left).
        split; intros c Hc.
        -- apply Hold in Hc. lia.
        -- rewrite (Hrow c) by (rewrite <- Hb; now right). lia.
      * injection Hb as <- ->.
        destruct (IH pre b l Ha) as (Hpre & Hpost).
        assert (Hbb : bestB b <= Z.of_nat h).
        { apply Hold. rewrite Ha. apply in_or_app. right. now left. }
        split; [exact Hpre|]. intros c Hc. apply in_app_or in Hc.
        destruct Hc as [Hc|Hc]; [auto | rewrite (Hrow c Hc); lia].
    + assert (Hbb : bestB b = Z.of_nat h + 1).
      { apply Hrow. rewrite Hb. apply in_or_app. right. now left. }
      split; intros c Hc.
      * subst pre. apply in_app_or in Hc. destruct Hc as [Hc|Hc].
        -- apply Hold in Hc. lia.
        -- rewrite (Hrow c); [lia|]. rewrite Hb. apply in_or_app. now left.
      * rewrite (Hrow c); [lia|]. rewrite Hb. apply in_or_app. right. now right.
Qed.

End Ties.

(** C9. In the histogram-stack scan a candidate replaces the recorded best
    only when its area is strictly greater, and the search keeps of the
    candidates in scan order what this comparison keeps. So when no candidate
    has a positive area nothing is found, and otherwise a rectangle is
    returned and it is the first candidate of the largest area: every
    candidate scanned before it is strictly smaller and was found no lower,
    every candidate scanned after it, the ones that tie with it among them,
    is at most as large and was found no higher. *)
Theorem ties_keep_first (data : list Q) (w h : nat) (THR : Q) :
  (forall b a l r y k,
      (bestArea b < a ->
       Histogram.consider b a l r y k = Histogram.cand a l r y k) /\
      (a <= bestArea b -> Histogram.consider b a l r y k = b)) /\
  snd (Histogram.search data w h THR) =
    fold_left Histogram.adopt (Histogram.all_cands data w h THR) Histogram.init_best /\
  (forall b, Histogram.findBest data w h THR = Some b ->
    exists pre post,
      Histogram.all_cands data w h THR = pre ++ b :: post /\
      (forall c, In c pre -> bestArea c < bestArea b /\ bestB c <= bestB b) /\
      (forall c, In c post -> bestArea c <= bestArea b /\ bestB b <= bestB c)) /\
  ((Histogram.findMaxRectangle data w h THR = None /\
    forall c, In c (Histogram.all_cands data w h THR) -> bestArea c <= 0) \/
   (exists b pre post,
      Histogram.findMaxRectangle data w h THR = Some (rect_of b) /\
      Histogram.findBest data w h THR = Some b /\
      Histogram.all_cands data w h THR = pre ++ b :: post /\
      0 < bestArea b /\
      (forall c, In c pre -> bestArea c < bestArea b /\ bestB c <= bestB b) /\
      (forall c, In c post -> bestArea c <= bestArea b /\ bestB b <= bestB c))) /\
  (forall c, In c (Histogram.all_cands data w h THR) -> 0 < bestArea c ->
     exists b, Histogram.findBest data w h THR = Some b /\
               Histogram.findMaxRectangle data w h THR = Some (rect_of b) /\
               bestArea c <= bestArea b).
Proof.
  split; [|split; [|split; [|split]]].
  - intros b a l r y k. unfold Histogram.consider, Histogram.cand.
    destruct (Z.gtb_spec a (bestArea b)); split; intros; (reflexivity || lia).
  - apply HistogramFacts.search_trace.
  - intros b Hb.
    destruct (findBest_cases data w h THR)
      as [(Hn & _)|(b' & pre & post & Hb' & Hcs & _ & Hpre & Hpost)];
      [congruence|].
    assert (b' = b) by congruence. subst b'.
    destruct (all_cands_rows data w THR h pre b post Hcs) as (Hrpre & Hrpost).
    exists pre, post. repeat split; auto.
  - unfold Histogram.findMaxRectangle.
    destruct (findBest_cases data w h THR)
      as [(Hn & Hall)|(b & pre & post & Hb & Hcs & Hpos & Hpre & Hpost)].
    + left. rewrite Hn. split; [reflexivity | exact Hall].
    + right. exists b, pre, post. rewrite Hb.
      destruct (all_cands_rows data w THR h pre b post Hcs) as (Hrpre & Hrpost).
      repeat split; auto.
  - intros c Hc Hpos. unfold Histogram.findMaxRectangle.
    destruct (findBest_cases data w h THR)
      as [(_ & Hall)|(b & pre & post & Hb & _)].
    + specialize (Hall c Hc). lia.
    + exists b. rewrite Hb. repeat split.
      now apply (findBest_area_max data w h THR b c).
Qed.

Lemma ties_keep_first_witness :
  Histogram.findMaxRectangle (rgba [[255; 255; 0]; [0; 255; 255]]%Q) 3 2 2 =
    Some {| left := 0; top := 0; right := 2; bottom := 1 |} /\
  exists pre post,
    Histogram.all_cands (rgba [[255; 255; 0]; [0; 255; 255]]%Q) 3 2 2 =
      pre ++ mkBest 2 0 2 0 1 :: post /\
    (forall c, In c pre -> bestArea c < 2 /\ bestB c <= 1) /\
    (forall c, In c post -> bestArea c <= 2 /\ 1 <= bestB c).
Proof.
  destruct (ties_keep_first (rgba [[255; 255; 0]; [0; 255; 255]]%Q) 3 2 2)
    as (_ & _ & Hfirst & _ & Hfound).
  split.
  - destruct (Hfound (mkBest 2 0 2 0 1)) as (b & Hb & Hr & _).
    + vm_compute. right. left. reflexivity.
    + simpl. lia.
    + rewrite Hr. vm_compute in Hb. injection Hb as <-. reflexivity.
  - apply (Hfirst (mkBest 2 0 2 0 1)). reflexivity.
Defined.

(** ** Only the alpha samples are read *)

Section AlphaOnly.

Variables data1 data2 : list Q.
Variable w : nat.
Variable THR : Q.

Hypothesis same_alpha :
  forall k, nth_error data1 (4 * k + 3)%nat = nth_error data2 (4 * k + 3)%nat.

Lemma same_alpha_ge x y :
  alpha_ge data1 THR (y * w * 4 + x * 4 + 3)%nat =
  alpha_ge data2 THR (y * w * 4 + x * 4 + 3)%nat.
Proof.
  unfold alpha_ge.
  replace (y * w * 4 + x * 4 + 3)%nat with (4 * (y * w + x) + 3)%nat by lia.
  now rewrite same_alpha.
Qed.

Lemma fold_left_pointwise {A B : Type} (f g : A -> B -> A) :
  (forall a b, f a b = g a b) ->
  forall l a, fold_left f l a = fold_left g l a.
Proof.
  intros Hfg. induction l as [|b l IH]; intros a; simpl; [reflexivity|].
  now rewrite Hfg, IH.
Qed.

Lemma find_pointwise {A : Type} (f g : A -> bool) :
  (forall a, f a = g a) -> forall l, find f l = find g l.
Proof.
  intros Hfg. induction l as [|a l IH]; simpl; [reflexivity|].
  now rewrite Hfg, IH.
Qed.

Lemma same_update_heights y heights :
  Histogram.update_heights data1 w THR y heights =
  Histogram.update_heights data2 w THR y heights.
Proof.
  unfold Histogram.update_heights. apply map_ext.
  intros x. now rewrite same_alpha_ge.
Qed.

Lemma same_histogram_findBest h :
  Histogram.findBest data1 w h THR = Histogram.findBest data2 w h THR.
Proof.
  unfold Histogram.findBest, Histogram.search.
  rewrite (fold_left_pointwise (Histogram.row_step data1 w THR)
                               (Histogram.row_step data2 w THR)); [reflexivity|].
  intros st y. unfold Histogram.row_step. now rewrite same_update_heights.
Qed.

Lemma same_row_profile y :
  RowProfile.row_profile data1 w THR y = RowProfile.row_profile data2 w THR y.
Proof.
  unfold RowProfile.row_profile.
  rewrite !(find_pointwise
              (fun x => alpha_ge data1 THR (y * w * 4 + x * 4 + 3)%nat)
              (fun x => alpha_ge data2 THR (y * w * 4 + x * 4 + 3)%nat));
    [reflexivity | |]; intros x; apply same_alpha_ge.
Qed.

Lemma same_profile_findBest h :
  RowProfile.findBest data1 w h THR = RowProfile.findBest data2 w h THR.
Proof.
  unfold RowProfile.findBest, RowProfile.profileL, RowProfile.profileR.
  rewrite (map_ext (fun y => fst (RowProfile.row_profile data1 w THR y))
                   (fun y => fst (RowProfile.row_profile data2 w THR y)))
    by (intros y; now rewrite same_row_profile).
  rewrite (map_ext (fun y => snd (RowProfile.row_profile data1 w THR y))
                   (fun y => snd (RowProfile.row_profile data2 w THR y)))
    by (intros y; now rewrite same_row_profile).
  reflexivity.
Qed.

End AlphaOnly.

(** C10. The result of the finder is a function of the alpha samples alone:
    two buffers with the same 4th component in every pixel group give, for the
    same width, height and threshold, the same result, whatever their colour
    components; in particular the same buffer gives the same result every
    time. Both searches have the property. *)
Theorem finder_reads_alpha_only (data1 data2 : list Q) (w h : nat) (THR : Q) :
  (forall k, nth_error data1 (4 * k + 3)%nat = nth_error data2 (4 * k + 3)%nat) ->
  Histogram.findMaxRectangle data1 w h THR = Histogram.findMaxRectangle data2 w h THR /\
  RowProfile.findRectangle data1 w h THR = RowProfile.findRectangle data2 w h THR.
Proof.
  intros Hsame.
  unfold Histogram.findMaxRectangle, RowProfile.findRectangle.
  now rewrite (same_histogram_findBest data1 data2 w THR Hsame h),
              (same_profile_findBest data1 data2 w THR Hsame h).
Qed.

Lemma finder_reads_alpha_only_witness :
  Histogram.findMaxRectangle [0; 0; 0; 255]%Q 1 1 2 =
  Histogram.findMaxRectangle [9; 8; 7; 255]%Q 1 1 2.
Proof.
  apply (finder_reads_alpha_only [0; 0; 0; 255]%Q [9; 8; 7; 255]%Q 1 1 2).
  intros [|k]; [reflexivity|].
  rewrite !(proj2 (nth_error_None _ _)); [reflexivity | |]; simpl; lia.
Defined.

(** ** The scenarios of the specification *)

Example bordered_finds_inner_square :
  Histogram.findMaxRectangle bordered 10 10 (alphaThreshold (JNum 8)) =
  Some {| left := 2; top := 2; right := 8; bottom := 8 |}.
Proof. vm_compute. reflexivity. Qed.

Example bordered_crop :
  Histogram.runCrop 10 10 (Some (image_of 8 bordered None)) =
  ([Crop {| left := 3; top := 3; right := 7; bottom := 7 |}], Returned).
Proof. vm_compute. reflexivity. Qed.

(** The two blocks of the L have the same area, 50; the one found first, the
    top block, is kept, not the bounding box. *)
Example l_shaped_finds_a_block :
  Histogram.findMaxRectangle l_shaped 10 10 2 =
  Some {| left := 0; top := 0; right := 10; bottom := 5 |}.
Proof. vm_compute. reflexivity. Qed.

(** The row-profile search on the same grids. *)
Example bordered_row_profile :
  RowProfile.findRectangle bordered 10 10 2 =
  Some {| left := 2; top := 2; right := 7; bottom := 7 |}.
Proof. vm_compute. reflexivity. Qed.

Example l_shaped_row_profile :
  RowProfile.findRectangle l_shaped 10 10 2 =
  Some {| left := 0; top := 0; right := 9; bottom := 4 |}.
Proof. vm_compute. reflexivity. Qed.

(** * Further properties of the code *)

(** ** The histogram of the stack search *)

(** X1. After the update of row [y] (main.js 101-104), [heights[x]] is the
    number of consecutive rows of column [x], ending at row [y], whose sample
    is at or above the threshold: it lies between 0 and [y + 1], and it is at
    least [k] exactly when the [k] rows up to [y] are opaque in column [x]. *)
Theorem histogram_counts_runs (data : list Q) (w : nat) (THR : Q) (x y : nat) :
  Z.of_nat (S y) < 2 ^ 31 -> (x < w)%nat ->
  0 <= hget (fst (Histogram.search data w (S y) THR)) x <= Z.of_nat (S y) /\
  forall k : nat,
    Z.of_nat k <= hget (fst (Histogram.search data w (S y) THR)) x <->
    (k <= S y)%nat /\
    forall t, (S y - k <= t <= y)%nat -> opaque data w THR x t.
Proof.
  intros Hy Hx.
  rewrite HistogramFacts.search_heights, heights_at_run by assumption.
  pose proof (run_le data w THR x y) as Hle.
  split; [lia|]. intros k.
  rewrite <- Nat2Z.inj_le, run_spec.
  split; intros (Hk & Ht); (split; [exact Hk|]); intros t Hr;
    apply opq_opaque; now apply Ht.
Qed.

Lemma histogram_counts_runs_witness :
  2 <= hget (fst (Histogram.search (rgba [[0; 255]; [255; 255]; [255; 255]]%Q) 2 3 2)) 0 <= 3.
Proof.
  destruct (histogram_counts_runs (rgba [[0; 255]; [255; 255]; [255; 255]]%Q)
              2 2 0 2 ltac:(reflexivity) ltac:(lia)) as (Hrange & Hk).
  split; [|apply Hrange].
  apply (Hk 2%nat). split; [lia|].
  intros t Ht. assert (Hc : (t = 1 \/ t = 2)%nat) by lia.
  destruct Hc as [-> | ->]; eexists; (split; [reflexivity | discriminate]).
Defined.

Section PopCount.
Import Histogram.

Lemma pop_count heights y i curH : forall stack,
  (List.length (pop_rest heights curH stack)
   + List.length (pop_cands heights y i curH stack) <= List.length stack)%nat.
Proof.
  induction stack as [|s rest IH]; simpl; [lia|].
  destruct (curH <? hget heights s); [|simpl; lia].
  destruct (hget heights s <=? 0); simpl; lia.
Qed.

Lemma cands_count heights w y n :
  let st := fold_left (cands_step heights w y) (seq 0 n) ([], []) in
  (List.length (fst st) + List.length (snd st) <= n)%nat /\
  (0 < n -> 0 < List.length (fst st))%nat.
Proof.
  apply (fold_left_seq_inv (cands_step heights w y)
           (fun i st => (List.length (fst st) + List.length (snd st) <= i)%nat /\
                        (0 < i -> 0 < List.length (fst st))%nat)).
  - simpl. lia.
  - intros i st _ (Hlen & _). unfold cands_step. simpl fst; simpl snd.
    rewrite length_app. simpl List.length.
    pose proof (pop_count heights y i
                  (if (i =? w)%nat then 0 else hget heights i) (fst st)).
    lia.
Qed.

End PopCount.

(** X2. In the scan of a row (main.js 107-131) every column index is pushed
    once and popped at most once, so a row proposes at most [w] rectangles,
    whatever the histogram, and the whole search at most [w * h]. *)
Theorem scan_proposes_at_most_w (data : list Q) (w h : nat) (THR : Q) :
  (forall heights y, (List.length (Histogram.row_cands heights w y) <= w)%nat) /\
  (List.length (Histogram.all_cands data w h THR) <= w * h)%nat.
Proof.
  assert (Hrow : forall heights y,
            (List.length (Histogram.row_cands heights w y) <= w)%nat).
  { intros heights y. unfold Histogram.row_cands.
    pose proof (cands_count heights w y (S w)) as Hcount. cbv zeta in Hcount.
    destruct Hcount as (Hlen & Hpos). specialize (Hpos ltac:(lia)). lia. }
  split; [exact Hrow|].
  induction h as [|h IH]; [simpl; lia|].
  rewrite HistogramFacts.all_cands_S, length_app.
  specialize (Hrow (Histogram.heights_at data w THR h) h). lia.
Qed.

(** X3. The rectangle the stack search returns (main.js 92-137) lies inside
    the pixel buffer: the alpha sample of each of its pixels is an element of
    [data], also when the buffer is shorter than [4 * w * h]. *)
Theorem found_rectangle_in_buffer (data : list Q) (w h : nat) (THR : Q) (r : rect) :
  Z.of_nat h < 2 ^ 31 ->
  Histogram.findMaxRectangle data w h THR = Some r ->
  forall x y : nat,
    left r <= Z.of_nat x < right r -> top r <= Z.of_nat y < bottom r ->
    (4 * (y * w + x) + 3 < List.length data)%nat.
Proof.
  intros Hh Hr x y Hx Hy.
  unfold Histogram.findMaxRectangle in Hr.
  destruct (Histogram.findBest data w h THR) as [b|] eqn:Hb; [|discriminate].
  injection Hr as <-.
  destruct (findBest_maximal data w h THR b Hh Hb)
    as ((l & r' & t & bt & Hlr & Htb & Hall & ->) & _).
  simpl in Hx, Hy.
  destruct (Hall x y ltac:(lia) ltac:(lia)) as (a & Ha & _).
  apply nth_error_Some. unfold alpha in Ha. congruence.
Qed.

Lemma found_rectangle_in_buffer_witness :
  (4 * (1 * 2 + 0) + 3 < List.length (rgba [[255; 0]; [255]]%Q))%nat.
Proof.
  apply (found_rectangle_in_buffer (rgba [[255; 0]; [255]]%Q) 2 2 2
           {| left := 0; top := 0; right := 1; bottom := 2 |});
    [reflexivity | reflexivity | simpl; lia | simpl; lia].
Defined.

(** ** The crop region *)

Lemma or0_id v : or0 v = v.
Proof. unfold or0. destruct (Z.eqb_spec v 0); congruence. Qed.

Lemma cropRegion_some_inside r offX offY width height c :
  cropRegion r offX offY width height = Some c ->
  (0 <= left c < right c /\ right c <= width) /\
  (0 <= top c < bottom c /\ bottom c <= height) /\
  (offX + left r + INSET <= left c /\ right c <= offX + right r - INSET) /\
  (offY + top r + INSET <= top c /\ bottom c <= offY + bottom r - INSET).
Proof.
  unfold cropRegion.
  destruct (Z.ltb_spec (Z.min width (Z.max 0 (offX + left r + INSET)))
                       (Z.min width (Z.max 0 (offX + right r - INSET)))) as [Hx|Hx];
    [|discriminate].
  destruct (Z.ltb_spec (Z.min height (Z.max 0 (offY + top r + INSET)))
                       (Z.min height (Z.max 0 (offY + bottom r - INSET)))) as [Hy|Hy];
    [|discriminate].
  simpl. intros [= <-]. simpl. lia.
Qed.

(** X4. A crop region, when one is produced (main.js 141-148), is not empty
    and is exactly the part of the document covered by the found rectangle
    moved by the offset and shrunk by [INSET] on its four sides. *)
Theorem cropRegion_is_intersection (r : rect) (offX offY width height : Z) (c : rect) :
  cropRegion r offX offY width height = Some c ->
  left c < right c /\ top c < bottom c /\
  left c = Z.max 0 (offX + left r + INSET) /\
  right c = Z.min width (offX + right r - INSET) /\
  top c = Z.max 0 (offY + top r + INSET) /\
  bottom c = Z.min height (offY + bottom r - INSET).
Proof.
  unfold cropRegion.
  destruct (Z.ltb_spec (Z.min width (Z.max 0 (offX + left r + INSET)))
                       (Z.min width (Z.max 0 (offX + right r - INSET)))) as [Hx|Hx];
    [|discriminate].
  destruct (Z.ltb_spec (Z.min height (Z.max 0 (offY + top r + INSET)))
                       (Z.min height (Z.max 0 (offY + bottom r - INSET)))) as [Hy|Hy];
    [|discriminate].
  simpl. intros [= <-]. simpl. lia.
Qed.

Lemma cropRegion_is_intersection_witness :
  left {| left := 0; top := 2; right := 4; bottom := 4 |} = Z.max 0 (-3 + 2 + INSET) /\
  right {| left := 0; top := 2; right := 4; bottom := 4 |} = Z.min 4 (-3 + 8 - INSET).
Proof.
  destruct (cropRegion_is_intersection
              {| left := 2; top := 1; right := 8; bottom := 5 |} (-3) 0 4 10
              {| left := 0; top := 2; right := 4; bottom := 4 |} eq_refl)
    as (_ & _ & Hl & Hr & _).
  split; [exact Hl | exact Hr].
Defined.

(** X5. Whenever the stack-search revision calls [doc.crop] (main.js 47-150),
    the region is a non-empty part of the document and each of its pixels is
    a pixel inside the source bounds of the layer whose alpha sample is at or
    above the threshold of the layer's depth. *)
Theorem histogram_crop_is_opaque (width height : Z) (io : ImageObj)
    (idata : ImageData) (data : list Q) (region : rect) :
  imageData io = Some idata ->
  getData idata (strict_eq_num (componentSize idata) 16) = Some data ->
  bottom (bounds_of width height io) - top (bounds_of width height io) < 2 ^ 31 ->
  In (Crop region) (fst (Histogram.runCrop width height (Some io))) ->
  (0 <= left region < right region /\ right region <= width) /\
  (0 <= top region < bottom region /\ bottom region <= height) /\
  forall X Y : Z,
    left region <= X < right region -> top region <= Y < bottom region ->
    left (bounds_of width height io) <= X < right (bounds_of width height io) /\
    top (bounds_of width height io) <= Y < bottom (bounds_of width height io) /\
    opaque data
      (Z.to_nat (right (bounds_of width height io) - left (bounds_of width height io)))
      (alphaThreshold (componentSize idata))
      (Z.to_nat (X - left (bounds_of width height io)))
      (Z.to_nat (Y - top (bounds_of width height io))).
Proof.
  intros Hio Hdata Hh. unfold Histogram.runCrop. rewrite Hio.
  fold (bounds_of width height io).
  replace (if strict_eq_num (componentSize idata) 16
           then getData idata true else getData idata false)
    with (Some data)
    by (destruct (strict_eq_num (componentSize idata) 16); now rewrite Hdata).
  set (sb := bounds_of width height io) in *.
  destruct (negb (components idata =? 4)); [intros [|[]]; discriminate|].
  destruct data as [|a0 data0]; [intros [|[]]; discriminate|].
  destruct (right sb - left sb <? 0); [intros []|].
  rewrite !or0_id.
  destruct (Histogram.findBest (a0 :: data0) _ _ _) as [b|] eqn:Hb;
    [|intros [|[]]; discriminate].
  destruct (cropRegion _ _ _ _ _) as [c|] eqn:Hc; [|intros []].
  intros [[= ->]|[]].
  assert (Hfit : Z.of_nat (Z.to_nat (bottom sb - top sb)) < 2 ^ 31) by lia.
  destruct (findBest_maximal (a0 :: data0) _ _ _ b Hfit Hb)
    as ((l & r & t & bt & Hlr & Htb & Hall & ->) & _).
  apply cropRegion_some_inside in Hc. unfold rect_of, INSET in Hc. simpl in Hc.
  destruct Hc as (Hx & Hy & Hcx & Hcy).
  split; [exact Hx|]. split; [exact Hy|].
  intros X Y HX HY. split; [lia|]. split; [lia|].
  apply Hall; lia.
Qed.

Lemma histogram_crop_is_opaque_witness :
  opaque opaque3 3 (alphaThreshold (JNum 8)) 1 1.
Proof.
  assert (Hin : In (Crop {| left := 1; top := 1; right := 2; bottom := 2 |})
                   (fst (Histogram.runCrop 3 3 (Some (image_of 8 opaque3 None)))))
    by (vm_compute; left; reflexivity).
  destruct (histogram_crop_is_opaque 3 3 (image_of 8 opaque3 None)
              {| components := 4; componentSize := JNum 8;
                 getData := fun _ => Some opaque3 |}
              opaque3 {| left := 1; top := 1; right := 2; bottom := 2 |}
              eq_refl eq_refl ltac:(reflexivity) Hin) as (_ & _ & Hpix).
  destruct (Hpix 1 1) as (_ & _ & Hop); [simpl; lia | simpl; lia | exact Hop].
Defined.

(** ** Disposal and errors of the modal body *)

Lemma rowprofile_runCrop_disposes_once_witness :
  disposals (fst (RowProfile.runCrop 3 3 (Some (image_of 8 opaque3 None)))) = 1%nat.
Proof.
  apply (rowprofile_runCrop_disposes_once 3 3 (image_of 8 opaque3 None)
           {| components := 4; componentSize := JNum 8;
              getData := fun _ => Some opaque3 |});
    [reflexivity | vm_compute; reflexivity].
Defined.

Lemma histogram_runCrop_early_exits_witness :
  Histogram.runCrop 2 1 (Some (image_of 8 (rgba [[0; 1]]%Q) None)) = ([Dispose], Returned).
Proof.
  apply (histogram_runCrop_early_exits 2 1 (image_of 8 (rgba [[0; 1]]%Q) None)
           {| components := 4; componentSize := JNum 8;
              getData := fun _ => Some (rgba [[0; 1]]%Q) |});
    [reflexivity|].
  right. right. right. exists (rgba [[0; 1]]%Q).
  split; [reflexivity|]. split; [simpl; lia | vm_compute; reflexivity].
Defined.

Lemma histogram_runCrop_found_witness :
  disposals (fst (Histogram.runCrop 3 3 (Some (image_of 8 opaque3 None)))) = 0%nat /\
  snd (Histogram.runCrop 3 3 (Some (image_of 8 opaque3 None))) = Returned.
Proof.
  apply (histogram_runCrop_found 3 3 (image_of 8 opaque3 None)
           {| components := 4; componentSize := JNum 8;
              getData := fun _ => Some opaque3 |}
           opaque3 (mkBest 9 0 3 0 3));
    [reflexivity | reflexivity | reflexivity | simpl; lia | vm_compute; reflexivity].
Defined.

(** X9. When the host answers an RGBA layer with data and source bounds of
    negative width, the stack-search revision ends in the RangeError of
    [new Int32Array(w)] (main.js 92) before anything is disposed of or
    cropped; the row-profile revision does the same on source bounds of
    negative height (lines 90-91). *)
Theorem runCrop_throws_on_negative_extent (width height : Z) (io : ImageObj)
    (idata : ImageData) (a : Q) (data : list Q) :
  imageData io = Some idata ->
  components idata = 4 ->
  getData idata (strict_eq_num (componentSize idata) 16) = Some (a :: data) ->
  (right (bounds_of width height io) < left (bounds_of width height io) ->
   Histogram.runCrop width height (Some io) = ([], Threw)) /\
  (bottom (bounds_of width height io) < top (bounds_of width height io) ->
   RowProfile.runCrop width height (Some io) = ([], Threw)).
Proof.
  intros Hio Hc Hd. unfold Histogram.runCrop, RowProfile.runCrop.
  fold (bounds_of width height io). rewrite Hio, Hc.
  replace (if strict_eq_num (componentSize idata) 16
           then getData idata true else getData idata false)
    with (Some (a :: data))
    by (destruct (strict_eq_num (componentSize idata) 16); now rewrite Hd).
  change (negb (4 =? 4)) with false. cbv iota.
  split; intros Hneg.
  - destruct (Z.ltb_spec (right (bounds_of width height io)
                          - left (bounds_of width height io)) 0); [reflexivity | lia].
  - destruct (Z.ltb_spec (bottom (bounds_of width height io)
                          - top (bounds_of width height io)) 0); [reflexivity | lia].
Qed.

Lemma runCrop_throws_on_negative_extent_witness :
  Histogram.runCrop 3 3
    (Some (image_of 8 opaque3 (Some {| left := 5; top := 0; right := 2; bottom := 3 |})))
  = ([], Threw).
Proof.
  apply (runCrop_throws_on_negative_extent 3 3
           (image_of 8 opaque3 (Some {| left := 5; top := 0; right := 2; bottom := 3 |}))
           {| components := 4; componentSize := JNum 8; getData := fun _ => Some opaque3 |}
           0%Q (tl opaque3));
    try reflexivity; simpl; lia.
Defined.

(** ** The row profile *)

Section Profile.
Import RowProfile.

Variable data : list Q.
Variables w h : nat.
Variable THR : Q.

Lemma find_rev_seq_last (f : nat -> bool) : forall n r,
  find f (rev (seq 0 n)) = Some r -> forall x, (r < x < n)%nat -> f x = false.
Proof.
  induction n as [|n IH]; intros r Hf x Hx; [lia|].
  rewrite seq_S, rev_app_distr in Hf. simpl in Hf.
  destruct (f n) eqn:E.
  - injection Hf as <-. lia.
  - destruct (Nat.eq_dec x n) as [->|Hne]; [exact E|].
    apply (IH r Hf). lia.
Qed.

(** What lines 93-108 store for row [y]. *)
Lemma row_profile_cases y :
  Z.of_nat w < 2 ^ 31 ->
  (row_profile data w THR y = (-1, -1) /\
   forall x, (x < w)%nat -> opq data w THR x y = false) \/
  (exists l r : nat,
      row_profile data w THR y = (Z.of_nat l, Z.of_nat r) /\
      (l <= r < w)%nat /\
      opq data w THR l y = true /\ opq data w THR r y = true /\
      forall x, (x < w)%nat -> opq data w THR x y = true -> (l <= x <= r)%nat).
Proof.
  intros Hw. unfold row_profile.
  change (fun x0 => alpha_ge data THR (y * w * 4 + x0 * 4 + 3))
    with (fun x0 => opq data w THR x0 y).
  destruct (find _ (seq 0 w)) as [l|] eqn:El.
  - right.
    pose proof (find_seq_first _ _ _ _ El) as Hfirst.
    apply find_some in El. destruct El as (Hl & Hopl). apply in_seq in Hl.
    destruct (find _ (rev (seq 0 w))) as [r|] eqn:Er.
    + pose proof (find_rev_seq_last _ _ _ Er) as Hlast.
      apply find_some in Er. destruct Er as (Hr & Hopr).
      apply in_rev, in_seq in Hr.
      assert (Hlr : (l <= r)%nat).
      { destruct (le_lt_dec l r) as [Hle|Hlt]; [exact Hle|].
        rewrite Hfirst in Hopr by lia. discriminate. }
      exists l, r. rewrite !int32_small by lia.
      repeat split; auto; try lia.
      * destruct (le_lt_dec l x) as [Hle|Hlt]; [exact Hle|].
        rewrite Hfirst in H0 by lia. discriminate.
      * destruct (le_lt_dec x r) as [Hle|Hlt]; [exact Hle|].
        rewrite Hlast in H0 by lia. discriminate.
    + exfalso. rewrite (find_none _ _ Er l) in Hopl; [discriminate|].
      apply -> in_rev. apply in_seq. lia.
  - left. split; [reflexivity|]. intros x Hx.
    apply (find_none _ _ El x). apply in_seq. lia.
Qed.

End Profile.

(** X10. For each row [y], lines 93-108 of the row-profile revision store in
    [L[y]] and [R[y]] the columns of the leftmost and of the rightmost sample
    at or above the threshold, and -1 in both when the row has none (widths
    below [2^31]). *)
Theorem row_profile_extent (data : list Q) (w : nat) (THR : Q) (y : nat) :
  Z.of_nat w < 2 ^ 31 ->
  (RowProfile.row_profile data w THR y = (-1, -1) /\
   forall x, (x < w)%nat -> ~ opaque data w THR x y) \/
  (exists l r : nat,
      RowProfile.row_profile data w THR y = (Z.of_nat l, Z.of_nat r) /\
      (l <= r < w)%nat /\
      opaque data w THR l y /\ opaque data w THR r y /\
      forall x, (x < w)%nat -> opaque data w THR x y -> (l <= x <= r)%nat).
Proof.
  intros Hw.
  destruct (row_profile_cases data w THR y Hw)
    as [(Hp & Hnone)|(l & r & Hp & Hlr & Hl & Hr & Hbetween)].
  - left. split; [exact Hp|]. intros x Hx Hop.
    apply opq_opaque in Hop. rewrite Hnone in Hop by exact Hx. discriminate.
  - right. exists l, r.
    split; [exact Hp|]. split; [exact Hlr|].
    split; [now apply opq_opaque|]. split; [now apply opq_opaque|].
    intros x Hx Hop. apply Hbetween; [exact Hx | now apply opq_opaque].
Qed.

Lemma row_profile_extent_witness :
  exists l r : nat,
    RowProfile.row_profile (rgba [[0; 255; 0; 255; 0]]%Q) 5 2 0 = (Z.of_nat l, Z.of_nat r) /\
    (l <= r < 5)%nat.
Proof.
  destruct (row_profile_extent (rgba [[0; 255; 0; 255; 0]]%Q) 5 2 0 ltac:(reflexivity))
    as [(Hp & _)|(l & r & Hp & Hlr & _)].
  - vm_compute in Hp. discriminate.
  - exists l, r. split; [exact Hp | exact Hlr].
Defined.

(** ** The widest row and the rectangle of the row-profile search *)

Section WidestRow.
Import RowProfile.

Variables L R : list Z.

Lemma widest_fold_spec n :
  (forall y, (y < n)%nat -> 0 <= hget L y -> hget L y <= hget R y) ->
  (fold_left (widest_step L R) (seq 0 n) (-1, -1) = (-1, -1) /\
   forall y, (y < n)%nat -> hget L y < 0) \/
  (exists y0 : nat,
      (y0 < n)%nat /\
      fold_left (widest_step L R) (seq 0 n) (-1, -1)
        = (Z.of_nat y0, hget R y0 - hget L y0) /\
      0 <= hget L y0 /\
      (forall y, (y < n)%nat -> 0 <= hget L y ->
                 hget R y - hget L y <= hget R y0 - hget L y0) /\
      (forall y, (y < y0)%nat -> 0 <= hget L y ->
                 hget R y - hget L y < hget R y0 - hget L y0)).
Proof.
  intros HLR.
  apply (fold_left_seq_inv (widest_step L R)
    (fun i st =>
       (st = (-1, -1) /\ forall y, (y < i)%nat -> hget L y < 0) \/
       (exists y0 : nat,
           (y0 < i)%nat /\ st = (Z.of_nat y0, hget R y0 - hget L y0) /\
           0 <= hget L y0 /\
           (forall y, (y < i)%nat -> 0 <= hget L y ->
                      hget R y - hget L y <= hget R y0 - hget L y0) /\
           (forall y, (y < y0)%nat -> 0 <= hget L y ->
                      hget R y - hget L y < hget R y0 - hget L y0)))).
  - left. split; [reflexivity|]. intros y Hy. lia.
  - intros i st Hi Hst. unfold widest_step.
    destruct (Z.geb_spec (hget L i) 0) as [Hge|Hlt].
    + pose proof (HLR i Hi ltac:(lia)) as Hext.
      destruct Hst as [(-> & Hnone)|(y0 & Hy0 & -> & HL0 & Hmax & Hfirst)]; simpl snd.
      * destruct (Z.gtb_spec (hget R i - hget L i) (-1)) as [_|Hle]; [|lia].
        right. exists i. repeat split; try lia.
        -- intros y Hy HLy. destruct (Nat.eq_dec y i) as [->|Hne]; [lia|].
           specialize (Hnone y ltac:(lia)). lia.
        -- intros y Hy HLy. specialize (Hnone y Hy). lia.
      * destruct (Z.gtb_spec (hget R i - hget L i) (hget R y0 - hget L y0))
          as [Hgt|Hle]; right.
        -- exists i. repeat split; try lia.
           ++ intros y Hy HLy. destruct (Nat.eq_dec y i) as [->|Hne]; [lia|].
              specialize (Hmax y ltac:(lia) HLy). lia.
           ++ intros y Hy HLy. specialize (Hmax y Hy HLy). lia.
        -- exists y0. repeat split; auto; try lia.
           intros y Hy HLy. destruct (Nat.eq_dec y i) as [->|Hne]; [lia|].
           apply Hmax; [lia | exact HLy].
    + destruct Hst as [(-> & Hnone)|(y0 & Hy0 & -> & HL0 & Hmax & Hfirst)].
      * left. split; [reflexivity|]. intros y Hy.
        destruct (Nat.eq_dec y i) as [->|Hne]; [lia|]. apply Hnone. lia.
      * right. exists y0. repeat split; auto; try lia.
        intros y Hy HLy. destruct (Nat.eq_dec y i) as [->|Hne]; [lia|].
        apply Hmax; [lia | exact HLy].
Qed.

Variables h y0 : nat.

Lemma up_loop_block : forall n maxL minR b,
  (n <= S y0)%nat -> (y0 < h)%nat ->
  (forall y, (n <= y <= y0)%nat ->
     0 <= hget L y /\ hget L y <= maxL /\ minR <= hget R y) ->
  profile_block L R h y0 b ->
  profile_block L R h y0 (up_loop L R y0 (rev (seq 0 n)) maxL minR b).
Proof.
  induction n as [|n IH]; intros maxL minR b Hn Hy0 Hrows Hb; [exact Hb|].
  rewrite seq_S, rev_app_distr. simpl.
  destruct (Z.ltb_spec (hget L n) 0) as [Hneg|Hpos]; [exact Hb|].
  destruct (Z.geb_spec (Z.max maxL (hget L n)) (Z.min minR (hget R n)))
    as [Hstop|Hgo]; [exact Hb|].
  apply IH; try lia.
  - intros y Hy. destruct (Nat.eq_dec y n) as [->|Hne]; [lia|].
    specialize (Hrows y ltac:(lia)). lia.
  - destruct (Z.gtb_spec
                ((Z.of_nat y0 - Z.of_nat n + 1)
                 * (Z.min minR (hget R n) - Z.max maxL (hget L n)))
                (bestArea b)) as [Hgt|Hle]; [|exact Hb].
    destruct Hb as (_ & Harea & _).
    split; [simpl; lia|]. split; [right; simpl; split; [lia | ring]|].
    simpl. intros y Hy. destruct (Nat.eq_dec y n) as [->|Hne]; [lia|].
    specialize (Hrows y ltac:(lia)). lia.
Qed.

Lemma down_loop_block : forall n y maxL minR b,
  (y0 <= y)%nat -> (y + n <= h)%nat ->
  (forall y', (y0 <= y' < y)%nat ->
     0 <= hget L y' /\ hget L y' <= maxL /\ minR <= hget R y') ->
  profile_block L R h y0 b ->
  profile_block L R h y0 (down_loop L R y0 (seq y n) maxL minR b).
Proof.
  induction n as [|n IH]; intros y maxL minR b Hy Hh Hrows Hb; [exact Hb|].
  simpl.
  destruct (Z.ltb_spec (hget L y) 0) as [Hneg|Hpos]; [exact Hb|].
  destruct (Z.geb_spec (Z.max maxL (hget L y)) (Z.min minR (hget R y)))
    as [Hstop|Hgo]; [exact Hb|].
  apply IH; try lia.
  - intros y' Hy'. destruct (Nat.eq_dec y' y) as [->|Hne]; [lia|].
    specialize (Hrows y' ltac:(lia)). lia.
  - destruct (Z.gtb_spec
                ((Z.of_nat y - Z.of_nat y0 + 1)
                 * (Z.min minR (hget R y) - Z.max maxL (hget L y)))
                (bestArea b)) as [Hgt|Hle]; [|exact Hb].
    destruct Hb as (_ & Harea & _).
    split; [simpl; lia|]. split; [right; simpl; split; [lia | ring]|].
    simpl. intros y' Hy'. destruct (Nat.eq_dec y' y) as [->|Hne]; [lia|].
    specialize (Hrows y' ltac:(lia)). lia.
Qed.

End WidestRow.

Section ProfileSearch.
Import RowProfile.

Variable data : list Q.
Variables w h : nat.
Variable THR : Q.
Hypothesis w_fits : Z.of_nat w < 2 ^ 31.

Lemma profile_ordered y :
  (y < h)%nat ->
  0 <= hget (profileL data w h THR) y ->
  hget (profileL data w h THR) y <= hget (profileR data w h THR) y.
Proof.
  intros Hy. rewrite profileL_get, profileR_get by exact Hy.
  destruct (row_profile_cases data w THR y w_fits)
    as [(-> & _)|(l & r & -> & Hlr & _)]; simpl; lia.
Qed.

Lemma profile_row_pixels y :
  (y < h)%nat ->
  0 <= hget (profileL data w h THR) y ->
  exists l r : nat,
    hget (profileL data w h THR) y = Z.of_nat l /\
    hget (profileR data w h THR) y = Z.of_nat r /\
    (l <= r < w)%nat /\
    opaque data w THR l y /\ opaque data w THR r y.
Proof.
  intros Hy. rewrite profileL_get, profileR_get by exact Hy.
  destruct (row_profile_cases data w THR y w_fits)
    as [(-> & _)|(l & r & -> & Hlr & Hl & Hr & _)]; simpl; [lia|].
  intros _. exists l, r. repeat split; try lia; now apply opq_opaque.
Qed.

Lemma profile_findBest_block b :
  findBest data w h THR = Some b ->
  exists y0 : nat,
    (y0 < h)%nat /\
    widest_row (profileL data w h THR) (profileR data w h THR) h = Z.of_nat y0 /\
    profile_block (profileL data w h THR) (profileR data w h THR) h y0 b.
Proof.
  unfold findBest, widest_row.
  destruct (widest_fold_spec (profileL data w h THR) (profileR data w h THR) h
              profile_ordered)
    as [(-> & _)|(y0 & Hy0 & -> & HL0 & _)]; simpl fst.
  - simpl. discriminate.
  - destruct (Z.ltb_spec (Z.of_nat y0) 0); [lia|].
    rewrite Nat2Z.id. intros [= <-].
    exists y0. split; [exact Hy0|]. split; [reflexivity|].
    pose proof (profile_ordered y0 Hy0 HL0) as HLR.
    apply (down_loop_block _ _ h y0 (h - y0) y0); try lia.
    apply (up_loop_block _ _ h y0 (S y0)); try lia.
    split; [simpl; lia|]. split; [left; reflexivity|].
    simpl. intros y Hy. replace y with y0 by lia. lia.
Qed.

End ProfileSearch.

(** X11. Lines 110-117 of the row-profile revision choose as [y0] the first row
    of the largest extent [R[y] - L[y]] among the rows that have an opaque
    pixel, and -1 when no row has one (widths below [2^31]). *)
Theorem widest_row_first_widest (data : list Q) (w h : nat) (THR : Q) :
  Z.of_nat w < 2 ^ 31 ->
  (RowProfile.widest_row (RowProfile.profileL data w h THR)
                         (RowProfile.profileR data w h THR) h = -1 /\
   forall x y, (x < w)%nat -> (y < h)%nat -> ~ opaque data w THR x y) \/
  (exists y0 : nat,
      (y0 < h)%nat /\
      RowProfile.widest_row (RowProfile.profileL data w h THR)
                            (RowProfile.profileR data w h THR) h = Z.of_nat y0 /\
      (exists x, (x < w)%nat /\ opaque data w THR x y0) /\
      forall y, (y < h)%nat ->
        0 <= fst (RowProfile.row_profile data w THR y) ->
        (snd (RowProfile.row_profile data w THR y)
         - fst (RowProfile.row_profile data w THR y)
         <= snd (RowProfile.row_profile data w THR y0)
            - fst (RowProfile.row_profile data w THR y0)) /\
        ((y < y0)%nat ->
         snd (RowProfile.row_profile data w THR y)
         - fst (RowProfile.row_profile data w THR y)
         < snd (RowProfile.row_profile data w THR y0)
           - fst (RowProfile.row_profile data w THR y0))).
Proof.
  intros Hw. unfold RowProfile.widest_row.
  destruct (widest_fold_spec (RowProfile.profileL data w h THR)
              (RowProfile.profileR data w h THR) h
              (profile_ordered data w h THR Hw))
    as [(-> & Hnone)|(y0 & Hy0 & -> & HL0 & Hmax & Hfirst)]; simpl fst.
  - left. split; [reflexivity|]. intros x y Hx Hy Hop.
    specialize (Hnone y Hy). rewrite profileL_get in Hnone by exact Hy.
    destruct (row_profile_cases data w THR y Hw)
      as [(_ & Hno)|(l & r & Hp & _)].
    + apply opq_opaque in Hop. rewrite Hno in Hop by exact Hx. discriminate.
    + rewrite Hp in Hnone. simpl in Hnone. lia.
  - right. exists y0. split; [exact Hy0|]. split; [reflexivity|].
    split.
    + destruct (profile_row_pixels data w h THR Hw y0 Hy0 HL0)
        as (l & r & _ & _ & Hlr & Hl & _).
      exists l. split; [lia | exact Hl].
    + intros y Hy HLy.
      rewrite <- !(profileL_get data w h THR), <- !(profileR_get data w h THR)
        by assumption.
      rewrite <- (profileL_get data w h THR) in HLy by assumption.
      split; [now apply Hmax|]. intros Hlt. now apply Hfirst.
Qed.

Lemma widest_row_first_widest_witness :
  RowProfile.widest_row
    (RowProfile.profileL (rgba [[0; 255; 0]; [255; 255; 255]; [255; 255; 255]]%Q) 3 3 2)
    (RowProfile.profileR (rgba [[0; 255; 0]; [255; 255; 255]; [255; 255; 255]]%Q) 3 3 2)
    3 <> -1.
Proof.
  destruct (widest_row_first_widest
              (rgba [[0; 255; 0]; [255; 255; 255]; [255; 255; 255]]%Q) 3 3 2
              ltac:(reflexivity))
    as [(_ & Hnone)|(y0 & _ & -> & _)]; [|lia].
  exfalso. apply (Hnone 1%nat 0%nat); [lia | lia |].
  eexists. split; [reflexivity | discriminate].
Defined.

(** X12. The rectangle of the row-profile revision (lines 89-159), with its
    bounds read inclusively, is a block of rows of the grid in which every
    pixel lies between two opaque pixels of its row; on a grid whose rows are
    intervals every pixel of it is opaque (widths below [2^31]). *)
Theorem rowprofile_rectangle_between_opaque (data : list Q) (w h : nat) (THR : Q)
    (b : best) :
  Z.of_nat w < 2 ^ 31 ->
  RowProfile.findBest data w h THR = Some b ->
  (0 <= bestT b <= bestB b /\ bestB b < Z.of_nat h) /\
  (0 <= bestL b <= bestR b /\ bestR b < Z.of_nat w) /\
  (forall x y : nat,
      bestL b <= Z.of_nat x <= bestR b -> bestT b <= Z.of_nat y <= bestB b ->
      exists xl xr, (xl <= x <= xr)%nat /\ (xr < w)%nat /\
                    opaque data w THR xl y /\ opaque data w THR xr y) /\
  (rows_convex data w h THR ->
   forall x y : nat,
     bestL b <= Z.of_nat x <= bestR b -> bestT b <= Z.of_nat y <= bestB b ->
     opaque data w THR x y).
Proof.
  intros Hw Hb.
  destruct (profile_findBest_block data w h THR Hw b Hb)
    as (y0 & Hy0 & _ & (HT & HB) & _ & Hrows).
  assert (Hpix : forall x y : nat,
             bestL b <= Z.of_nat x <= bestR b -> bestT b <= Z.of_nat y <= bestB b ->
             exists xl xr, (xl <= x <= xr)%nat /\ (xr < w)%nat /\
                           opaque data w THR xl y /\ opaque data w THR xr y).
  { intros x y Hx Hy. destruct (Hrows y Hy) as (HL & HLb & _ & HRb).
    destruct (profile_row_pixels data w h THR Hw y ltac:(lia) HL)
      as (l & r & El & Er & Hlr & Hl & Hr).
    exists l, r. repeat split; try lia; assumption. }
  split; [lia|]. split.
  - destruct (Hrows y0 ltac:(lia)) as (HL & HLb & HLR & HRb).
    destruct (profile_row_pixels data w h THR Hw y0 Hy0 HL)
      as (l & r & El & Er & Hlr & _). lia.
  - split; [exact Hpix|]. intros Hconvex x y Hx Hy.
    destruct (Hpix x y Hx Hy) as (xl & xr & Hxx & Hxr & Hl & Hr).
    apply (Hconvex y xl x xr); try assumption; lia.
Qed.

Lemma rowprofile_rectangle_between_opaque_witness :
  opaque (rgba [[0; 255; 255]]%Q) 3 2 2 0.
Proof.
  assert (Hb : RowProfile.findBest (rgba [[0; 255; 255]]%Q) 3 1 2
               = Some (mkBest 1 1 2 0 0))
    by (vm_compute; reflexivity).
  destruct (rowprofile_rectangle_between_opaque (rgba [[0; 255; 255]]%Q) 3 1 2 _
              ltac:(reflexivity) Hb) as (_ & _ & _ & Hconvex).
  apply Hconvex; [|simpl; lia | simpl; lia].
  intros y xl x xr Hy Hx Hxr (al & Hal & Hl) Hr.
  assert (Hy0 : y = 0%nat) by lia. subst y.
  assert (Hcases : (x = 1 \/ x = 2)%nat \/ (x = 0 /\ xl = 0)%nat) by lia.
  destruct Hcases as [[-> | ->]|(-> & ->)].
  - eexists. split; [reflexivity | discriminate].
  - eexists. split; [reflexivity | discriminate].
  - now exists al.
Defined.

(** ** Fully opaque grids *)

Section ConstantProfile.
Import RowProfile.

Variables L R : list Z.
Variable W1 : Z.
Hypothesis W1_pos : 0 < W1.

Lemma down_loop_const : forall n y b,
  (1 <= y)%nat ->
  (forall y', (y <= y' < y + n)%nat -> hget L y' = 0 /\ hget R y' = W1) ->
  b = mkBest (Z.of_nat y * W1) 0 W1 0 (Z.of_nat y - 1) ->
  down_loop L R 0 (seq y n) 0 W1 b =
  mkBest (Z.of_nat (y + n) * W1) 0 W1 0 (Z.of_nat (y + n) - 1).
Proof.
  induction n as [|n IH]; intros y b Hy Hrows ->.
  - simpl. now rewrite Nat.add_0_r.
  - simpl. destruct (Hrows y ltac:(lia)) as (-> & ->).
    rewrite Z.max_id, Z.min_id. simpl (0 <? 0).
    destruct (Z.geb_spec 0 W1) as [Hge|_]; [lia|].
    match goal with
    | |- context [if ?c >? ?d then _ else _] =>
        destruct (Z.gtb_spec c d) as [_|Hle]; [|nia]
    end.
    replace (y + S n)%nat with (S y + n)%nat by lia.
    apply IH; [lia | intros y' Hy'; apply Hrows; lia |].
    rewrite Nat2Z.inj_succ. f_equal; lia.
Qed.

Lemma up_loop_const_first :
  hget L 0 = 0 -> hget R 0 = W1 ->
  up_loop L R 0 [0%nat] 0 W1 (mkBest 0 0 W1 0 0) = mkBest W1 0 W1 0 0.
Proof.
  intros HL HR. cbn [up_loop bestArea].
  rewrite HL, HR, Z.max_id, Z.min_id. change (0 <? 0) with false. cbv iota.
  destruct (Z.geb_spec 0 W1) as [Hge|_]; [lia|].
  match goal with
  | |- context [if ?c >? ?d then _ else _] =>
      destruct (Z.gtb_spec c d) as [_|Hle]; [|lia]
  end.
  f_equal; lia.
Qed.

Lemma down_loop_const_all n :
  (forall y', (y' < S n)%nat -> hget L y' = 0 /\ hget R y' = W1) ->
  down_loop L R 0 (seq 0 (S n)) 0 W1 (mkBest W1 0 W1 0 0) =
  mkBest (Z.of_nat (S n) * W1) 0 W1 0 (Z.of_nat (S n) - 1).
Proof.
  intros Hrows. cbn [seq down_loop bestArea].
  destruct (Hrows 0%nat ltac:(lia)) as (-> & ->).
  rewrite Z.max_id, Z.min_id. change (0 <? 0) with false. cbv iota.
  destruct (Z.geb_spec 0 W1) as [Hge|_]; [lia|].
  match goal with
  | |- context [if ?c >? ?d then _ else _] =>
      destruct (Z.gtb_spec c d) as [Hgt|_]; [lia|]
  end.
  rewrite (down_loop_const n 1 (mkBest W1 0 W1 0 0)).
  - reflexivity.
  - lia.
  - intros y' Hy'. apply Hrows. lia.
  - f_equal; lia.
Qed.

End ConstantProfile.

Section NarrowProfile.
Import RowProfile.

Variables L R : list Z.
Hypothesis L0 : hget L 0 = 0.
Hypothesis R0 : hget R 0 = 0.

Lemma up_loop_narrow b : up_loop L R 0 [0%nat] 0 0 b = b.
Proof. simpl. now rewrite L0, R0. Qed.

Lemma down_loop_narrow n b : down_loop L R 0 (seq 0 (S n)) 0 0 b = b.
Proof. simpl. now rewrite L0, R0. Qed.

End NarrowProfile.

Section OpaqueGrid.
Import Histogram.

Variable data : list Q.
Variables w h : nat.
Variable THR : Q.
Hypothesis w_pos : (1 <= w)%nat.
Hypothesis h_pos : (1 <= h)%nat.
Hypothesis full : all_opaque data w THR 0 w 0 h.

Lemma findBest_fully_opaque :
  Z.of_nat h < 2 ^ 31 ->
  findBest data w h THR =
  Some (mkBest (Z.of_nat w * Z.of_nat h) 0 (Z.of_nat w) 0 (Z.of_nat h)).
Proof.
  intros Hfit.
  destruct (findBest_some_of_opaque data w h THR 0 0 Hfit) as (b & Hb);
    [lia | lia | apply full; lia |].
  destruct (findBest_maximal data w h THR b Hfit Hb)
    as ((l & r & t & bt & Hlr & Htb & _ & Hbeq) & Hmax).
  specialize (Hmax 0%nat w 0%nat h ltac:(lia) ltac:(lia) full).
  rewrite Hb. subst b. simpl in Hmax.
  assert (Hr : Z.of_nat r - Z.of_nat l = Z.of_nat w) by nia.
  assert (Hb' : Z.of_nat bt - Z.of_nat t = Z.of_nat h) by nia.
  rewrite Hr, Hb'. do 2 f_equal; lia.
Qed.

Lemma full_row_profile y :
  Z.of_nat w < 2 ^ 31 -> (y < h)%nat ->
  RowProfile.row_profile data w THR y = (0, Z.of_nat w - 1).
Proof.
  intros Hw Hy.
  destruct (row_profile_cases data w THR y Hw)
    as [(_ & Hnone)|(l & r & -> & Hlr & _ & _ & Hbetween)].
  - specialize (Hnone 0%nat ltac:(lia)).
    rewrite (proj2 (opq_opaque data w THR 0 y)) in Hnone; [discriminate|].
    apply full; lia.
  - pose proof (Hbetween 0%nat ltac:(lia)
                  (proj2 (opq_opaque data w THR 0 y) (full 0%nat y ltac:(lia) ltac:(lia)))).
    pose proof (Hbetween (w - 1)%nat ltac:(lia)
                  (proj2 (opq_opaque data w THR (w - 1) y)
                         (full (w - 1)%nat y ltac:(lia) ltac:(lia)))).
    f_equal; lia.
Qed.

Lemma full_profile_findBest :
  Z.of_nat w < 2 ^ 31 ->
  RowProfile.findBest data w h THR =
  Some (if (w =? 1)%nat then mkBest 0 0 0 0 0
        else mkBest (Z.of_nat h * (Z.of_nat w - 1)) 0 (Z.of_nat w - 1)
                    0 (Z.of_nat h - 1)).
Proof.
  intros Hw.
  assert (HL : forall y, (y < h)%nat ->
            hget (RowProfile.profileL data w h THR) y = 0).
  { intros y Hy. now rewrite profileL_get, full_row_profile. }
  assert (HR : forall y, (y < h)%nat ->
            hget (RowProfile.profileR data w h THR) y = Z.of_nat w - 1).
  { intros y Hy. now rewrite profileR_get, full_row_profile. }
  unfold RowProfile.findBest, RowProfile.widest_row.
  destruct (widest_fold_spec (RowProfile.profileL data w h THR)
              (RowProfile.profileR data w h THR) h
              (profile_ordered data w h THR Hw))
    as [(_ & Hnone)|(y0 & Hy0 & -> & _ & _ & Hfirst)].
  { specialize (Hnone 0%nat ltac:(lia)). rewrite HL in Hnone; lia. }
  assert (y0 = 0%nat) as ->.
  { destruct y0 as [|y0]; [reflexivity|].
    specialize (Hfirst 0%nat ltac:(lia)). rewrite !HL, !HR in Hfirst by lia. lia. }
  simpl fst. change (Z.of_nat 0 <? 0) with false. cbv iota.
  change (Z.to_nat (Z.of_nat 0)) with 0%nat.
  change (rev (seq 0 1)) with [0%nat].
  rewrite Nat.sub_0_r, !HL, !HR by lia. f_equal.
  destruct h as [|h']; [lia|].
  destruct (Nat.eqb_spec w 1) as [->|Hw1].
  - change (Z.of_nat 1 - 1) with 0.
    rewrite up_loop_narrow, down_loop_narrow; try reflexivity;
      try (rewrite HL by lia; reflexivity); rewrite HR by lia; reflexivity.
  - rewrite (up_loop_const_first _ _ (Z.of_nat w - 1) ltac:(lia))
      by (try apply HL; try apply HR; lia).
    rewrite (down_loop_const_all _ _ (Z.of_nat w - 1) ltac:(lia))
      by (intros y' Hy'; split; [apply HL | apply HR]; lia).
    reflexivity.
Qed.

End OpaqueGrid.

(** X13. On a grid whose samples are all at or above the threshold the
    row-profile revision (lines 89-159) finds [{left: 0, right: w - 1, top: 0,
    bottom: h - 1}] when the grid is at least 2 columns wide: its right and
    bottom are the last column and row, not one past them. On a grid one
    column wide it finds [{left: 0, right: 0, top: 0, bottom: 0}]. *)
Theorem rowprofile_fully_opaque (data : list Q) (w h : nat) (THR : Q) :
  (1 <= w)%nat -> (1 <= h)%nat -> Z.of_nat w < 2 ^ 31 ->
  all_opaque data w THR 0 w 0 h ->
  RowProfile.findRectangle data w h THR =
  Some (if (w =? 1)%nat then {| left := 0; top := 0; right := 0; bottom := 0 |}
        else {| left := 0; top := 0;
                right := Z.of_nat w - 1; bottom := Z.of_nat h - 1 |}).
Proof.
  intros Hw Hh Hfit Hall. unfold RowProfile.findRectangle.
  rewrite (full_profile_findBest data w h THR Hw Hh Hall Hfit).
  destruct (w =? 1)%nat; reflexivity.
Qed.

Lemma rowprofile_fully_opaque_witness :
  RowProfile.findRectangle opaque3 3 3 2 =
  Some {| left := 0; top := 0; right := 2; bottom := 2 |}.
Proof.
  apply (rowprofile_fully_opaque opaque3 3 3 2); [lia | lia | reflexivity |].
  intros x y Hx Hy.
  assert (Hc : (x = 0 \/ x = 1 \/ x = 2)%nat /\ (y = 0 \/ y = 1 \/ y = 2)%nat) by lia.
  destruct Hc as ([-> | [-> | ->]] & [-> | [-> | ->]]);
    eexists; (split; [reflexivity | discriminate]).
Defined.

Section OpaqueLayer.

Variable csize : Q.
Variable data : list Q.
Variables w h : nat.
Hypothesis w_pos : (1 <= w)%nat.
Hypothesis h_pos : (1 <= h)%nat.
Hypothesis full : all_opaque data w (alphaThreshold (JNum csize)) 0 w 0 h.

Lemma opaque_layer_data : exists a rest, data = a :: rest.
Proof.
  destruct (full 0%nat 0%nat ltac:(lia) ltac:(lia)) as (a & Ha & _).
  unfold alpha in Ha. destruct data as [|a0 rest]; [discriminate|].
  now exists a0, rest.
Qed.

Lemma opaque_layer_histogram :
  Z.of_nat h < 2 ^ 31 ->
  Histogram.runCrop (Z.of_nat w) (Z.of_nat h) (Some (image_of csize data None)) =
  match cropRegion {| left := 0; top := 0; right := Z.of_nat w; bottom := Z.of_nat h |}
                   0 0 (Z.of_nat w) (Z.of_nat h) with
  | Some region => ([Crop region], Returned)
  | None => ([], Returned)
  end.
Proof.
  intros Hfit. unfold Histogram.runCrop, image_of.
  cbn [imageData sourceBounds components componentSize getData left top right bottom].
  change (negb (4 =? 4)) with false. cbv iota.
  replace (if strict_eq_num (JNum csize) 16 then Some data else Some data)
    with (Some data) by (now destruct (strict_eq_num (JNum csize) 16)).
  destruct opaque_layer_data as (a & rest & Hd). rewrite Hd. cbv iota. rewrite <- Hd.
  rewrite Z.sub_0_r, Z.sub_0_r, Nat2Z.id, Nat2Z.id.
  destruct (Z.ltb_spec (Z.of_nat w) 0); [lia|].
  rewrite (findBest_fully_opaque data w h _ w_pos h_pos full Hfit).
  reflexivity.
Qed.

Lemma opaque_layer_rowprofile :
  Z.of_nat w < 2 ^ 31 ->
  RowProfile.runCrop (Z.of_nat w) (Z.of_nat h) (Some (image_of csize data None)) =
  match cropRegion
          (if (w =? 1)%nat then {| left := 0; top := 0; right := 0; bottom := 0 |}
           else {| left := 0; top := 0;
                   right := Z.of_nat w - 1; bottom := Z.of_nat h - 1 |})
          0 0 (Z.of_nat w) (Z.of_nat h) with
  | Some region => ([Crop region; Dispose], Returned)
  | None => ([Dispose], Returned)
  end.
Proof.
  intros Hfit. unfold RowProfile.runCrop, image_of.
  cbn [imageData sourceBounds components componentSize getData left top right bottom].
  change (negb (4 =? 4)) with false. cbv iota.
  replace (if strict_eq_num (JNum csize) 16 then Some data else Some data)
    with (Some data) by (now destruct (strict_eq_num (JNum csize) 16)).
  destruct opaque_layer_data as (a & rest & Hd). rewrite Hd. cbv iota. rewrite <- Hd.
  rewrite Z.sub_0_r, Z.sub_0_r, Nat2Z.id, Nat2Z.id.
  destruct (Z.ltb_spec (Z.of_nat h) 0); [lia|].
  rewrite (full_profile_findBest data w h _ w_pos h_pos full Hfit).
  destruct (w =? 1)%nat; reflexivity.
Qed.

End OpaqueLayer.

(** X14. On a layer that covers the document and whose samples are all at or
    above the threshold of its depth, the stack-search revision (main.js
    47-150) crops the document to [{left: 1, top: 1, right: w - 1,
    bottom: h - 1}], one pixel in on each side, when the document is at least
    3 pixels wide and high, and does nothing otherwise. *)
Theorem histogram_runCrop_opaque_layer (csize : Q) (data : list Q) (w h : nat) :
  (1 <= w)%nat -> (1 <= h)%nat -> Z.of_nat h < 2 ^ 31 ->
  all_opaque data w (alphaThreshold (JNum csize)) 0 w 0 h ->
  Histogram.runCrop (Z.of_nat w) (Z.of_nat h) (Some (image_of csize data None)) =
  if ((3 <=? w) && (3 <=? h))%nat
  then ([Crop {| left := 1; top := 1;
                 right := Z.of_nat w - 1; bottom := Z.of_nat h - 1 |}], Returned)
  else ([], Returned).
Proof.
  intros Hw Hh Hfit Hall.
  rewrite (opaque_layer_histogram csize data w h Hw Hh Hall Hfit).
  unfold cropRegion, INSET. cbn [left top right bottom].
  destruct (Nat.leb_spec 3 w) as [Hw3|Hw3];
    destruct (Nat.leb_spec 3 h) as [Hh3|Hh3]; simpl andb;
    repeat match goal with
           | |- context [if (?a <? ?b) && _ then _ else _] =>
               destruct (Z.ltb_spec a b); simpl andb
           | |- context [if ?a <? ?b then _ else _] => destruct (Z.ltb_spec a b)
           end;
    try lia; try reflexivity; try (exfalso; lia); do 4 f_equal; lia.
Qed.

Lemma histogram_runCrop_opaque_layer_witness :
  Histogram.runCrop 3 3 (Some (image_of 8 opaque3 None)) =
  ([Crop {| left := 1; top := 1; right := 2; bottom := 2 |}], Returned).
Proof.
  apply (histogram_runCrop_opaque_layer 8 opaque3 3 3); [lia | lia | reflexivity |].
  intros x y Hx Hy.
  assert (Hc : (x = 0 \/ x = 1 \/ x = 2)%nat /\ (y = 0 \/ y = 1 \/ y = 2)%nat) by lia.
  destruct Hc as ([-> | [-> | ->]] & [-> | [-> | ->]]);
    eexists; (split; [reflexivity | discriminate]).
Defined.

(** X15. On the same layers the row-profile revision (lines 47-172) crops to
    [{left: 1, top: 1, right: w - 2, bottom: h - 2}], two pixels in on the
    right and at the bottom, when the document is at least 4 pixels wide and
    high, and only disposes of the buffer otherwise. *)
Theorem rowprofile_runCrop_opaque_layer (csize : Q) (data : list Q) (w h : nat) :
  (1 <= w)%nat -> (1 <= h)%nat -> Z.of_nat w < 2 ^ 31 ->
  all_opaque data w (alphaThreshold (JNum csize)) 0 w 0 h ->
  RowProfile.runCrop (Z.of_nat w) (Z.of_nat h) (Some (image_of csize data None)) =
  if ((4 <=? w) && (4 <=? h))%nat
  then ([Crop {| left := 1; top := 1;
                 right := Z.of_nat w - 2; bottom := Z.of_nat h - 2 |}; Dispose],
        Returned)
  else ([Dispose], Returned).
Proof.
  intros Hw Hh Hfit Hall.
  rewrite (opaque_layer_rowprofile csize data w h Hw Hh Hall Hfit).
  unfold cropRegion, INSET.
  destruct (Nat.eqb_spec w 1) as [Hw1|Hw1]; cbn [left top right bottom];
    destruct (Nat.leb_spec 4 w) as [Hw4|Hw4];
    destruct (Nat.leb_spec 4 h) as [Hh4|Hh4]; simpl andb;
    repeat match goal with
           | |- context [if (?a <? ?b) && _ then _ else _] =>
               destruct (Z.ltb_spec a b); simpl andb
           | |- context [if ?a <? ?b then _ else _] => destruct (Z.ltb_spec a b)
           end;
    try lia; try reflexivity; try (exfalso; lia); do 4 f_equal; lia.
Qed.

Lemma rowprofile_runCrop_opaque_layer_witness :
  RowProfile.runCrop 3 3 (Some (image_of 8 opaque3 None)) = ([Dispose], Returned).
Proof.
  apply (rowprofile_runCrop_opaque_layer 8 opaque3 3 3); [lia | lia | reflexivity |].
  intros x y Hx Hy.
  assert (Hc : (x = 0 \/ x = 1 \/ x = 2)%nat /\ (y = 0 \/ y = 1 \/ y = 2)%nat) by lia.
  destruct Hc as ([-> | [-> | ->]] & [-> | [-> | ->]]);
    eexists; (split; [reflexivity | discriminate]).
Defined.

(** ** Comparing grids *)

(** X16. When every pixel that is opaque in one grid is opaque in another of the
    same size, the rectangle the stack search finds in the second is at
    least as large as the one it finds in the first; in particular a lower
    threshold on the same buffer never gives a smaller rectangle. *)
Theorem more_opaque_no_smaller (data1 data2 : list Q) (w h : nat) (THR1 THR2 : Q)
    (r1 : rect) :
  Z.of_nat h < 2 ^ 31 ->
  (forall x y, (x < w)%nat -> (y < h)%nat ->
     opaque data1 w THR1 x y -> opaque data2 w THR2 x y) ->
  Histogram.findMaxRectangle data1 w h THR1 = Some r1 ->
  exists r2,
    Histogram.findMaxRectangle data2 w h THR2 = Some r2 /\ area r1 <= area r2.
Proof.
  intros Hfit Hmore Hr1. unfold Histogram.findMaxRectangle in *.
  destruct (Histogram.findBest data1 w h THR1) as [b1|] eqn:Hb1; [|discriminate].
  injection Hr1 as <-.
  destruct (findBest_maximal data1 w h THR1 b1 Hfit Hb1)
    as ((l & r & t & bt & Hlr & Htb & Hall & ->) & _).
  assert (Hall2 : all_opaque data2 w THR2 l r t bt).
  { intros x y Hx Hy. apply Hmore; [lia | lia | now apply Hall]. }
  destruct (findBest_some_of_opaque data2 w h THR2 l t Hfit) as (b2 & Hb2);
    [lia | lia | apply Hall2; lia |].
  rewrite Hb2. exists (rect_of b2). split; [reflexivity|].
  destruct (findBest_maximal data2 w h THR2 b2 Hfit Hb2)
    as ((l2 & r2 & t2 & bt2 & _ & _ & _ & Hbeq) & Hmax).
  specialize (Hmax l r t bt Hlr Htb Hall2).
  subst b2. unfold area, rect_of. simpl in *. lia.
Qed.

Lemma more_opaque_no_smaller_witness :
  exists r2,
    Histogram.findMaxRectangle (rgba [[3; 2]]%Q) 2 1 2 = Some r2 /\
    area {| left := 0; top := 0; right := 1; bottom := 1 |} <= area r2.
Proof.
  apply (more_opaque_no_smaller (rgba [[3; 2]]%Q) (rgba [[3; 2]]%Q) 2 1 3 2);
    [reflexivity | | reflexivity].
  intros x y _ _ (a & Ha & Hle). exists a. split; [exact Ha|].
  apply Qle_trans with (y := 3%Q); [discriminate | exact Hle].
Defined.

Section GridOnly.

Variables data1 data2 : list Q.
Variables w h : nat.
Variable THR : Q.

Hypothesis same_grid :
  forall x y, (x < w)%nat -> (y < h)%nat -> alpha data1 w x y = alpha data2 w x y.

Lemma same_grid_ge x y :
  (x < w)%nat -> (y < h)%nat ->
  alpha_ge data1 THR (y * w * 4 + x * 4 + 3)%nat =
  alpha_ge data2 THR (y * w * 4 + x * 4 + 3)%nat.
Proof.
  intros Hx Hy. pose proof (same_grid x y Hx Hy) as Hxy.
  unfold alpha in Hxy. unfold alpha_ge.
  replace (y * w * 4 + x * 4 + 3)%nat with (4 * (y * w + x) + 3)%nat by lia.
  now rewrite Hxy.
Qed.

Lemma fold_left_ext_in {A B : Type} (f g : A -> B -> A) : forall l a,
  (forall a' b, In b l -> f a' b = g a' b) ->
  fold_left f l a = fold_left g l a.
Proof.
  induction l as [|b l IH]; intros a Hfg; simpl; [reflexivity|].
  rewrite Hfg by now left. apply IH. intros a' b' Hb'. apply Hfg. now right.
Qed.

Lemma find_ext_in {A : Type} (f g : A -> bool) : forall l,
  (forall a, In a l -> f a = g a) -> find f l = find g l.
Proof.
  induction l as [|a l IH]; intros Hfg; simpl; [reflexivity|].
  rewrite Hfg by now left. rewrite IH; [reflexivity|].
  intros a' Ha'. apply Hfg. now right.
Qed.

Lemma same_grid_histogram :
  Histogram.findBest data1 w h THR = Histogram.findBest data2 w h THR.
Proof.
  unfold Histogram.findBest, Histogram.search.
  rewrite (fold_left_ext_in (Histogram.row_step data1 w THR)
                            (Histogram.row_step data2 w THR)); [reflexivity|].
  intros st y Hy. apply in_seq in Hy.
  unfold Histogram.row_step, Histogram.update_heights.
  rewrite (map_ext_in _
             (fun x => if alpha_ge data2 THR (y * w * 4 + x * 4 + 3)%nat
                       then int32 (hget (fst st) x + 1) else 0));
    [reflexivity|].
  intros x Hx. apply in_seq in Hx. rewrite same_grid_ge by lia. reflexivity.
Qed.

Lemma same_grid_row_profile y :
  (y < h)%nat ->
  RowProfile.row_profile data1 w THR y = RowProfile.row_profile data2 w THR y.
Proof.
  intros Hy. unfold RowProfile.row_profile.
  rewrite (find_ext_in
             (fun x => alpha_ge data1 THR (y * w * 4 + x * 4 + 3)%nat)
             (fun x => alpha_ge data2 THR (y * w * 4 + x * 4 + 3)%nat) (seq 0 w))
    by (intros x Hx; apply in_seq in Hx; apply same_grid_ge; lia).
  rewrite (find_ext_in
             (fun x => alpha_ge data1 THR (y * w * 4 + x * 4 + 3)%nat)
             (fun x => alpha_ge data2 THR (y * w * 4 + x * 4 + 3)%nat)
             (rev (seq 0 w)))
    by (intros x Hx; apply in_rev, in_seq in Hx; apply same_grid_ge; lia).
  reflexivity.
Qed.

Lemma same_grid_rowprofile :
  RowProfile.findBest data1 w h THR = RowProfile.findBest data2 w h THR.
Proof.
  unfold RowProfile.findBest, RowProfile.profileL, RowProfile.profileR.
  rewrite (map_ext_in (fun y => fst (RowProfile.row_profile data1 w THR y))
                      (fun y => fst (RowProfile.row_profile data2 w THR y)))
    by (intros y Hy; apply in_seq in Hy; rewrite same_grid_row_profile; [reflexivity | lia]).
  rewrite (map_ext_in (fun y => snd (RowProfile.row_profile data1 w THR y))
                      (fun y => snd (RowProfile.row_profile data2 w THR y)))
    by (intros y Hy; apply in_seq in Hy; rewrite same_grid_row_profile; [reflexivity | lia]).
  reflexivity.
Qed.

End GridOnly.

(** X17. Neither search reads a sample outside the grid: two buffers whose alpha
    samples agree on the pixels [(x, y)] with [x < w] and [y < h] give the
    same result, whatever else the buffers hold and however long they are. *)
Theorem finder_reads_grid_only (data1 data2 : list Q) (w h : nat) (THR : Q) :
  (forall x y, (x < w)%nat -> (y < h)%nat ->
     alpha data1 w x y = alpha data2 w x y) ->
  Histogram.findMaxRectangle data1 w h THR = Histogram.findMaxRectangle data2 w h THR /\
  RowProfile.findRectangle data1 w h THR = RowProfile.findRectangle data2 w h THR.
Proof.
  intros Hsame. unfold Histogram.findMaxRectangle, RowProfile.findRectangle.
  now rewrite (same_grid_histogram data1 data2 w h THR Hsame),
              (same_grid_rowprofile data1 data2 w h THR Hsame).
Qed.

Lemma finder_reads_grid_only_witness :
  Histogram.findMaxRectangle [0; 0; 0; 255]%Q 1 1 2 =
  Histogram.findMaxRectangle [9; 8; 7; 255; 1; 2; 3; 255]%Q 1 1 2.
Proof.
  apply (finder_reads_grid_only [0; 0; 0; 255]%Q [9; 8; 7; 255; 1; 2; 3; 255]%Q 1 1 2).
  intros x y Hx Hy. replace x with 0%nat by lia. replace y with 0%nat by lia.
  reflexivity.
Defined.

(** ** When the document is cropped *)

(** X18. Either revision calls [doc.crop] only for a layer that the host
    answered with four components and a buffer that is not empty, and only
    with a region that is not empty and lies inside the document. *)
Theorem crop_needs_alpha (width height : Z) (imageObj : option ImageObj)
    (region : rect) :
  In (Crop region) (fst (Histogram.runCrop width height imageObj)) \/
  In (Crop region) (fst (RowProfile.runCrop width height imageObj)) ->
  (exists io idata a data,
      imageObj = Some io /\ imageData io = Some idata /\
      components idata = 4 /\
      getData idata (strict_eq_num (componentSize idata) 16) = Some (a :: data)) /\
  (0 <= left region < right region /\ right region <= width) /\
  (0 <= top region < bottom region /\ bottom region <= height).
Proof.
  unfold Histogram.runCrop, RowProfile.runCrop.
  destruct imageObj as [io|]; [|intros [[]|[]]].
  destruct (imageData io) as [idata|] eqn:Hio; [|intros [[]|[]]].
  replace (if strict_eq_num (componentSize idata) 16
           then getData idata true else getData idata false)
    with (getData idata (strict_eq_num (componentSize idata) 16))
    by (now destruct (strict_eq_num (componentSize idata) 16)).
  destruct (Z.eqb_spec (components idata) 4) as [Hc|Hc]; simpl negb; cbv iota;
    [|intros [[|[]]|[|[]]]; discriminate].
  destruct (getData idata (strict_eq_num (componentSize idata) 16))
    as [[|a data]|] eqn:Hd; try (intros [[|[]]|[|[]]]; discriminate).
  intros Hin.
  split; [exists io, idata, a, data; repeat split; auto|].
  assert (Hcrop : exists r offX offY,
             cropRegion r offX offY width height = Some region).
  { destruct Hin as [Hin|Hin].
    - destruct (_ <? 0); [destruct Hin|].
      destruct (Histogram.findBest _ _ _ _) as [b|]; [|destruct Hin as [|[]]; discriminate].
      destruct (cropRegion _ _ _ _ _) as [c|] eqn:Hcr; [|destruct Hin].
      destruct Hin as [[= ->]|[]]. eauto.
    - destruct (_ <? 0); [destruct Hin|].
      destruct (RowProfile.findBest _ _ _ _) as [b|]; [|destruct Hin as [|[]]; discriminate].
      destruct (cropRegion _ _ _ _ _) as [c|] eqn:Hcr;
        [|destruct Hin as [|[]]; discriminate].
      destruct Hin as [[= ->]|[|[]]]; [eauto | discriminate]. }
  destruct Hcrop as (r & offX & offY & Hcr).
  apply cropRegion_some_inside in Hcr. tauto.
Qed.

Lemma crop_needs_alpha_witness :
  0 <= left {| left := 1; top := 1; right := 2; bottom := 2 |}
    < right {| left := 1; top := 1; right := 2; bottom := 2 |} /\
  right {| left := 1; top := 1; right := 2; bottom := 2 |} <= 3.
Proof.
  assert (Hin : In (Crop {| left := 1; top := 1; right := 2; bottom := 2 |})
                   (fst (Histogram.runCrop 3 3 (Some (image_of 8 opaque3 None)))))
    by (vm_compute; left; reflexivity).
  apply (crop_needs_alpha 3 3 (Some (image_of 8 opaque3 None)) _ (or_introl Hin)).
Defined.

(** * The two finders on grids with opaque pixels *)

Section ProfileFacts.

Variable data : list Q.
Variables w h : nat.
Variable THR : Q.
Hypothesis w_fits : Z.of_nat w < 2 ^ 31.



End ProfileFacts.








